(** * A model of the NETCONF client session engine

    The session code (NewSession, SendHello, ReceiveHello, Close, listen,
    ExecRPC, AsyncRPC, SyncRPC, CreateNotificationStream) is embedded as
    state-passing functions over a [World]: the [Session] struct, the
    locals that closures capture, the number of running receive loops and a
    chronological trace of what the code did to its collaborators. *)

From stdpp Require Import gmap strings list.

Local Open Scope string_scope.

(** ** Go's [strings.Contains] *)

Module strings.

(** [HasPrefix s p]: [s] starts with [p]. *)
Fixpoint HasPrefix (s p : string) : bool :=
  match p, s with
  | EmptyString, _ => true
  | String _ _, EmptyString => false
  | String a p', String b s' => if Ascii.eqb a b then HasPrefix s' p' else false
  end.

(** [Contains s substr]: [substr] occurs somewhere within [s]. *)
Fixpoint Contains (s substr : string) : bool :=
  HasPrefix s substr ||
  match s with
  | EmptyString => false
  | String _ s' => Contains s' substr
  end.

End strings.

(** ** The message catalog (package [message])

    The package's declarations are not among the session files.  Each type
    below has the fields the session code reads or writes. *)

(** Go's [error] interface, seen through its message; [option error] is a
    possibly-nil error. *)
Definition error := string.

Module message.

(** A protocol-level error carried by a reply.  The session code only
    counts and prints them. *)
Definition RPCError := string.

Record Hello := mkHello {
  Hello_SessionID : Z;
  Hello_Capabilities : list string;
}.

(** [new(message.Hello)] *)
Definition zeroHello : Hello := mkHello 0 [].

Record RPCReply := mkRPCReply {
  MessageID : string;
  Errors : list RPCError;
  RawReply : string;
}.

(** [message.RPCReply{}] *)
Definition zeroRPCReply : RPCReply := mkRPCReply "" [] "".

Record Notification := mkNotification {
  SubscriptionID : string;
  Notification_RawReply : string;
}.

(** An operation as the session sees it through the [RPCMethod] interface:
    its message id, and a body that only the marshaller looks at. *)
Record RPCMethod := mkRPCMethod {
  GetMessageID : string;
  Body : string;
}.

End message.

Import message.

(** What the session takes from the catalog and from [encoding/xml]: the
    constants, the decoders and the marshallers.  Their sources are not part
    of the session files, so the session is modelled over any of them. *)
Class Catalog := {
  NetconfVersion10 : string;
  NetconfVersion11 : string;
  NetconfNotificationStreamHandler : string;
  xml_Marshal_Hello : Hello -> string + error;
  xml_Unmarshal_Hello : string -> Hello * option error;
  xml_Marshal : RPCMethod -> string + error;
  NewRPCReply : string -> RPCReply + error;
  NewNotification : string -> Notification + error;
  NewCreateSubscription : string -> string -> string -> RPCMethod;
  (** [%s] of a reply's error list *)
  fmt_Errors : list RPCError -> string;
}.

(** The double quote, and [xml.Header]. *)
Definition dquote : string := String (Ascii.ascii_of_nat 34) EmptyString.
Definition newline : string := String (Ascii.ascii_of_nat 10) EmptyString.
Definition xml_Header : string :=
  "<?xml version=" +:+ dquote +:+ "1.0" +:+ dquote +:+
  " encoding=" +:+ dquote +:+ "UTF-8" +:+ dquote +:+ "?>" +:+ newline.

(** [%s] of a possibly-nil error. *)
Definition fmt_error (e : option error) : string :=
  match e with
  | Some m => m
  | None => "%!s(<nil>)"
  end.

(** ** Events and callbacks *)

(** The second argument of [Dispatch]: the receive loop passes 0 for a reply
    and 1 for a notification. *)
Definition EventType := nat.
Definition EventReply : EventType := 0.
Definition EventNotification : EventType := 1.

(** The [interface{}] value handed to [Dispatch]. *)
Inductive Value :=
| VReply (r : RPCReply)
| VNotification (n : Notification).

(** Modelled from the spec: the Event type, whose source file is missing: a
    tagged union over a reply and a notification, plus the correlation key
    it was delivered under. *)
Record Event := mkEvent {
  EventID : string;
  Event_Type : EventType;
  Event_Value : Value;
}.

(** [event.RPCReply()]: the reply, or nil when the event holds none. *)
Definition Event_RPCReply (e : Event) : option RPCReply :=
  match Event_Value e with
  | VReply r => Some r
  | VNotification _ => None
  end.

(** Callbacks are closures in Go.  Here a callback is either one supplied
    by the caller, known by a name and observed through its invocations, or
    the closure that [SyncRPC] builds over its two locals, known by the cell
    that holds them. *)
Inductive Callback :=
| UserCallback (name : string)
| SyncRPCCallback (cell : nat).

(** The locals [reply] and [replyReceived] of one [SyncRPC] call. *)
Record SyncCell := mkSyncCell {
  reply : RPCReply;
  replyReceived : bool;
}.

(** ** The dispatcher *)

Inductive Persistence := SingleShot | Durable.

Record Registration := mkRegistration {
  consumer : Callback;
  persistence : Persistence;
}.

(** Modelled from the spec: the Dispatcher, whose source file is missing: a
    registry from correlation key to one consumer with a persistence
    class. *)
Record Dispatcher := mkDispatcher {
  callbacks : gmap string Registration;
}.

(** ** The transport *)

(** Modelled from the spec: the Transport the session consumes, whose
    implementations are missing: a framing tag set by [SetVersion], a
    closed mark set by [Close], and the answers the connection will give to
    the coming calls of [Send] and [Receive].  When the answers run out
    [Send] succeeds and [Receive] reports the end of the stream; [Receive]
    on a closed transport fails. *)
Record Transport := mkTransport {
  version : string;
  transport_closed : bool;
  send_answers : list (option error);
  receive_answers : list (string + error);
  close_answer : option error;
}.

(** ** The session and its world *)

Record Session := mkSession {
  Session_Transport : Transport;
  SessionID : Z;
  Capabilities : list string;
  IsClosed : bool;
  Listener : Dispatcher;
  IsNotificationStreamCreated : bool;
}.

(** What the code does to its collaborators, in the order it does it. *)
Inductive Action :=
| ActSend (framing : string) (payload : string) (answer : option error)
| ActReceive (answer : string + error)
| ActSetVersion (v : string)
| ActClose
| ActRegister (key : string) (cb : Callback)
| ActDispatch (key : string) (kind : EventType) (v : Value)
| ActInvoke (cb : Callback) (e : Event)
| ActPrint (line : string)
| ActGo
| ActSleep.

Record World := mkWorld {
  session : Session;
  cells : list SyncCell;
  receive_loops : nat;
  trace : list Action;
}.

(** Field updates. *)
Definition set_Transport (t : Transport) (s : Session) : Session :=
  mkSession t (SessionID s) (Capabilities s) (IsClosed s) (Listener s)
            (IsNotificationStreamCreated s).
Definition set_Hello (h : Hello) (s : Session) : Session :=
  mkSession (Session_Transport s) (Hello_SessionID h) (Hello_Capabilities h)
            (IsClosed s) (Listener s) (IsNotificationStreamCreated s).
Definition set_IsClosed (b : bool) (s : Session) : Session :=
  mkSession (Session_Transport s) (SessionID s) (Capabilities s) b (Listener s)
            (IsNotificationStreamCreated s).
Definition set_Listener (d : Dispatcher) (s : Session) : Session :=
  mkSession (Session_Transport s) (SessionID s) (Capabilities s) (IsClosed s) d
            (IsNotificationStreamCreated s).
Definition set_IsNotificationStreamCreated (b : bool) (s : Session) : Session :=
  mkSession (Session_Transport s) (SessionID s) (Capabilities s) (IsClosed s)
            (Listener s) b.

Definition with_session (f : Session -> Session) (w : World) : World :=
  mkWorld (f (session w)) (cells w) (receive_loops w) (trace w).
Definition with_cells (f : list SyncCell -> list SyncCell) (w : World) : World :=
  mkWorld (session w) (f (cells w)) (receive_loops w) (trace w).
Definition with_receive_loops (f : nat -> nat) (w : World) : World :=
  mkWorld (session w) (cells w) (f (receive_loops w)) (trace w).
Definition emit (a : Action) (w : World) : World :=
  mkWorld (session w) (cells w) (receive_loops w) (trace w ++ [a]).

Definition transport (w : World) : Transport := Session_Transport (session w).
Definition listener (w : World) : gmap string Registration :=
  callbacks (Listener (session w)).

(** [println] *)
Definition println (line : string) (w : World) : World := emit (ActPrint line) w.

(** How a call ends: it returns, or the goroutine panics. *)
Inductive Result (A : Type) :=
| Returned (a : A)
| Panicked (reason : string).
Arguments Returned {A} a.
Arguments Panicked {A} reason.

Definition nil_dereference : string :=
  "invalid memory address or nil pointer dereference".

(** ** Transport operations *)

(** Modelled from the spec: [Transport.Send] takes the payload under the
    framing in force and gives the connection's next answer. *)
Definition Transport_Send (data : string) (w : World) : option error * World :=
  let t := transport w in
  let answer := default None (head (send_answers t)) in
  let t' := mkTransport (version t) (transport_closed t) (tail (send_answers t))
                        (receive_answers t) (close_answer t) in
  (answer, emit (ActSend (version t) data answer) (with_session (set_Transport t') w)).

(** Modelled from the spec: [Transport.Receive] gives the next payload or
    error of the connection; it fails once the transport is closed. *)
Definition Transport_Receive (w : World) : (string + error) * World :=
  let t := transport w in
  if transport_closed t then
    let answer : string + error := inr "use of closed network connection" in
    (answer, emit (ActReceive answer) w)
  else
    let answer : string + error := default (inr "EOF") (head (receive_answers t)) in
    let t' := mkTransport (version t) (transport_closed t) (send_answers t)
                          (tail (receive_answers t)) (close_answer t) in
    (answer, emit (ActReceive answer) (with_session (set_Transport t') w)).

(** Modelled from the spec: [Transport.SetVersion] sets the framing used by
    the sends and receives that follow. *)
Definition Transport_SetVersion (v : string) (w : World) : World :=
  let t := transport w in
  let t' := mkTransport v (transport_closed t) (send_answers t)
                        (receive_answers t) (close_answer t) in
  emit (ActSetVersion v) (with_session (set_Transport t') w).

(** Modelled from the spec: [Transport.Close] marks the transport closed. *)
Definition Transport_Close (w : World) : option error * World :=
  let t := transport w in
  let t' := mkTransport (version t) true (send_answers t)
                        (receive_answers t) (close_answer t) in
  (close_answer t, emit ActClose (with_session (set_Transport t') w)).

(** ** Dispatcher operations *)

Section WithCatalog.
Context `{Catalog}.

(** Modelled from the spec: the persistence class of a registration.  The
    source registers with a key and a callback only; the entry under the
    notification handler key is the durable one, an entry under a request id
    is single-shot. *)
Definition persistence_of (key : string) : Persistence :=
  if String.eqb key NetconfNotificationStreamHandler then Durable else SingleShot.

(** Modelled from the spec: [Dispatcher.init], an empty registry. *)
Definition Dispatcher_init : Dispatcher := mkDispatcher ∅.

(** Modelled from the spec: [Dispatcher.Register] associates one consumer
    with one key; registering under a key in use overwrites. *)
Definition Register (key : string) (cb : Callback) (w : World) : World :=
  let d := mkDispatcher (<[key := mkRegistration cb (persistence_of key)]> (listener w)) in
  emit (ActRegister key cb) (with_session (set_Listener d) w).

(** Modelled from the spec: [Dispatcher.Remove] deletes a registration if
    present. *)
Definition Remove (key : string) (w : World) : World :=
  with_session (set_Listener (mkDispatcher (delete key (listener w)))) w.

(** Running a callback on an event.  The closure of [SyncRPC] stores the
    reply the event holds in its cell, which dereferences
    [event.RPCReply()]. *)
Definition invoke (cb : Callback) (e : Event) (w : World) : Result unit * World :=
  let w := emit (ActInvoke cb e) w in
  match cb with
  | UserCallback _ => (Returned tt, w)
  | SyncRPCCallback c =>
      match Event_RPCReply e with
      | None => (Panicked nil_dereference, w)
      | Some r =>
          let w := with_cells (fun cs => <[c := mkSyncCell r true]> cs) w in
          let w := println "Successfully executed RPC" w in
          (Returned tt, println (RawReply r) w)
      end
  end.

(** Modelled from the spec: [Dispatcher.Dispatch].  A registered consumer is
    invoked with the event built from kind, value and key; a single-shot
    registration is removed right after the invocation, a durable one
    stays; without a registration the event is dropped. *)
Definition Dispatch (key : string) (kind : EventType) (v : Value) (w : World)
  : Result unit * World :=
  let w := emit (ActDispatch key kind v) w in
  match listener w !! key with
  | None => (Returned tt, w)
  | Some reg =>
      match invoke (consumer reg) (mkEvent key kind v) w with
      | (Panicked m, w) => (Panicked m, w)
      | (Returned _, w) =>
          match persistence reg with
          | SingleShot => (Returned tt, Remove key w)
          | Durable => (Returned tt, w)
          end
      end
  end.

End WithCatalog.

(** ** The session (session.go) *)

Section SessionCode.
Context `{Catalog}.

(** [ReceiveHello] *)
Definition ReceiveHello (w : World) : (Hello * option error) * World :=
  let w := with_session (set_IsClosed false) w in
  let hello := zeroHello in
  let '(val, w) := Transport_Receive w in
  match val with
  | inr err => ((hello, Some err), w)
  | inl val => (xml_Unmarshal_Hello val, w)
  end.

(** [new(Session)] with its transport set, in a world where nothing has
    happened yet. *)
Definition new_Session (t : Transport) : World :=
  mkWorld (mkSession t 0 [] false (mkDispatcher ∅) false) [] 0 [].

(** [NewSession] *)
Definition NewSession (t : Transport) : World :=
  let w := new_Session t in
  let '((serverHello, _), w) := ReceiveHello w in
  let w := with_session (set_Hello serverHello) w in
  with_session (set_Listener Dispatcher_init) w.

(** The loop over the peer's capabilities at the end of the handshake, with
    its [break]. *)
Fixpoint select_version (capabilities : list string) (w : World) : World :=
  match capabilities with
  | [] => w
  | capability :: rest =>
      if strings.Contains capability NetconfVersion11
      then Transport_SetVersion "v1.1" w
      else select_version rest w
  end.

(** [go func() { ... }()] in [listen]: one more receive loop runs. *)
Definition listen (w : World) : World :=
  emit ActGo (with_receive_loops S w).

(** [SendHello] *)
Definition SendHello (hello : Hello) (w : World) : option error * World :=
  match xml_Marshal_Hello hello with
  | inr err => (Some err, w)
  | inl val =>
      let val := xml_Header +:+ val in
      let '(err, w) := Transport_Send val w in
      let w := Transport_SetVersion "v1.0" w in
      let w := select_version (Capabilities (session w)) w in
      let w := listen w in
      (err, w)
  end.

(** [Close] *)
Definition Close (w : World) : option error * World :=
  let w := with_session (set_IsClosed true) w in
  Transport_Close w.

(** How one pass through the body of the receive loop ends. *)
Inductive LoopCtl := Continue | Break.

(** The check at the bottom of the loop body. *)
Definition check_closed (w : World) : Result LoopCtl * World :=
  if IsClosed (session w)
  then (Returned Break, println "exist receiving loop" w)
  else (Returned Continue, w).

(** After a dispatch the loop body goes on to that check, unless the
    callback panicked. *)
Definition after_dispatch (r : Result unit * World) : Result LoopCtl * World :=
  match r with
  | (Panicked m, w) => (Panicked m, w)
  | (Returned _, w) => check_closed w
  end.

(** One pass through the body of the [for] loop in [listen]. *)
Definition listen_iter (w : World) : Result LoopCtl * World :=
  let '(received, w) := Transport_Receive w in
  match received with
  | inr err =>
      (Returned Continue, println ("failed to receive message " +:+ err) w)
  | inl rawXML =>
      let rawReply := rawXML in
      if strings.Contains rawReply "<rpc-reply" then
        match NewRPCReply rawXML with
        | inr err =>
            (Returned Continue,
             println ("failed to marshall message into an RPCReply. " +:+ err) w)
        | inl rpcReply =>
            after_dispatch (Dispatch (MessageID rpcReply) 0 (VReply rpcReply) w)
        end
      else if strings.Contains rawReply "<notification" then
        match NewNotification rawXML with
        | inr err =>
            (Returned Continue,
             println ("failed to marshall message into an Notification. " +:+ err) w)
        | inl notification =>
            after_dispatch
              (Dispatch (SubscriptionID notification) 1 (VNotification notification) w)
        end
      else
        check_closed
          (println ("unknown received message: " +:+ newline +:+ rawXML) w)
  end.

(** The receive loop itself, for at most [fuel] passes: [None] when the
    loop is still running after them. *)
Fixpoint listen_loop (fuel : nat) (w : World) : option (Result unit) * World :=
  match fuel with
  | 0 => (None, w)
  | S fuel =>
      match listen_iter w with
      | (Panicked m, w) => (Some (Panicked m), w)
      | (Returned Break, w) => (Some (Returned tt), w)
      | (Returned Continue, w) => listen_loop fuel w
      end
  end.

(** What the receive loops do while another goroutine sleeps: [n] passes
    through the loop body, as long as a loop is running. *)
Fixpoint background (n : nat) (w : World) : Result unit * World :=
  match n with
  | 0 => (Returned tt, w)
  | S n =>
      match receive_loops w with
      | 0 => (Returned tt, w)
      | S _ =>
          match listen_iter w with
          | (Panicked m, w) => (Panicked m, w)
          | (Returned Break, w) => background n (with_receive_loops pred w)
          | (Returned Continue, w) => background n w
          end
      end
  end.

End SessionCode.

(** ** Remote procedure calls (rpc.go, operations.go) *)

(** Reading a field through a pointer. *)
Definition deref {A : Type} (p : option A) : Result A :=
  match p with
  | Some a => Returned a
  | None => Panicked nil_dereference
  end.

(** The order in which the receive loops get to run while a caller polls:
    [sched k] passes through the loop body during the caller's [k]-th
    sleep. *)
Definition Schedule := nat -> nat.

Section RPCCode.
Context `{Catalog}.

(** [marshall] *)
Definition marshall (operation : RPCMethod) : string + error :=
  match xml_Marshal operation with
  | inr err => inr err
  | inl request => inl (xml_Header +:+ request)
  end.

(** [ExecRPC] *)
Definition ExecRPC (operation : RPCMethod) (w : World)
  : (option RPCReply * option error) * World :=
  match xml_Marshal operation with
  | inr err => ((None, Some err), w)
  | inl request =>
      let request := xml_Header +:+ request in
      let w := println (newline +:+ newline +:+ "Sending RPC") w in
      let '(err, w) := Transport_Send request w in
      match err with
      | Some err => ((None, Some err), w)
      | None =>
          let w := println (newline +:+ "Receiving RPC's answer") w in
          let '(received, w) := Transport_Receive w in
          match received with
          | inr err => ((None, Some err), w)
          | inl rawXML =>
              match NewRPCReply rawXML with
              | inr err => ((None, Some err), w)
              | inl reply => ((Some reply, None), w)
              end
          end
      end
  end.

(** [AsyncRPC] *)
Definition AsyncRPC (operation : RPCMethod) (callback : Callback) (w : World)
  : option error * World :=
  match marshall operation with
  | inr err => (Some err, w)
  | inl request =>
      let w := Register (GetMessageID operation) callback w in
      let w := println (newline +:+ "Sending RPC") w in
      let '(err, w) := Transport_Send request w in
      match err with
      | Some err => (Some err, w)
      | None => (None, w)
      end
  end.

(** [replyReceived], read through the closure's cell. *)
Definition cell_received (c : nat) (w : World) : bool :=
  match cells w !! c with
  | Some x => replyReceived x
  | None => false
  end.

(** [reply], read through the closure's cell. *)
Definition cell_reply (c : nat) (w : World) : RPCReply :=
  match cells w !! c with
  | Some x => reply x
  | None => zeroRPCReply
  end.

(** The polling loop at the end of [SyncRPC]: [for !replyReceived { sleep }],
    for at most [fuel] sleeps from the [k]-th on.  [None]: still polling
    when the fuel is used up. *)
Fixpoint await_reply (fuel : nat) (sched : Schedule) (k : nat) (c : nat) (w : World)
  : option (Result (option RPCReply * option error)) * World :=
  if cell_received c w then (Some (Returned (Some (cell_reply c w), None)), w)
  else
    match fuel with
    | 0 => (None, w)
    | S fuel =>
        match background (sched k) (emit ActSleep w) with
        | (Panicked m, w) => (Some (Panicked m), w)
        | (Returned _, w) => await_reply fuel sched (S k) c w
        end
    end.

(** [SyncRPC] *)
Definition SyncRPC (fuel : nat) (sched : Schedule) (operation : RPCMethod) (w : World)
  : option (Result (option RPCReply * option error)) * World :=
  match marshall operation with
  | inr err => (Some (Returned (None, Some err)), w)
  | inl request =>
      let c := length (cells w) in
      let w := with_cells (fun cs => (cs ++ [mkSyncCell zeroRPCReply false])%list) w in
      let callback := SyncRPCCallback c in
      let w := Register (GetMessageID operation) callback w in
      let w := println (newline +:+ newline +:+ "Sending RPC") w in
      let '(err, w) := Transport_Send request w in
      match err with
      | Some err => (Some (Returned (None, Some err)), w)
      | None => await_reply fuel sched 0 c w
      end
  end.

(** The error returned when a stream is already subscribed. *)
Definition subscription_conflict : error :=
  "there is already an active notification stream subscription. " +:+
  "A session can only support one notification stream at the time".

(** The error returned when the subscription request did not go through. *)
Definition subscription_failed (errors : list RPCError) (err : option error) : error :=
  "fail to create notification stream with errors: " +:+ fmt_Errors errors +:+
  ". Error: " +:+ fmt_error err.

(** [CreateNotificationStream] *)
Definition CreateNotificationStream (fuel : nat) (sched : Schedule)
    (stopTime startTime stream : string) (callback : Callback) (w : World)
  : option (Result (option error)) * World :=
  if IsNotificationStreamCreated (session w) then
    (Some (Returned (Some subscription_conflict)), w)
  else
    let w := Register NetconfNotificationStreamHandler callback w in
    let sub := NewCreateSubscription stopTime startTime stream in
    match SyncRPC fuel sched sub w with
    | (None, w) => (None, w)
    | (Some (Panicked m), w) => (Some (Panicked m), w)
    | (Some (Returned (rpc, err)), w) =>
        (* err != nil || len(rpc.Errors) != 0 *)
        let failed : Result bool :=
          match err with
          | Some _ => Returned true
          | None =>
              match deref rpc with
              | Panicked m => Panicked m
              | Returned r => Returned (negb (Nat.eqb (length (Errors r)) 0))
              end
          end in
        match failed with
        | Panicked m => (Some (Panicked m), w)
        | Returned true =>
            (* the arguments of fmt.Errorf: rpc.Errors, err *)
            match deref rpc with
            | Panicked m => (Some (Panicked m), w)
            | Returned r =>
                (Some (Returned (Some (subscription_failed (Errors r) err))), w)
            end
        | Returned false =>
            (Some (Returned None),
             with_session (set_IsNotificationStreamCreated true) w)
        end
    end.

End RPCCode.

(** ** Operations and observations *)



(** The payloads handed to the transport's [Send], in order. *)
Fixpoint sends (tr : list Action) : list string :=
  match tr with
  | [] => []
  | ActSend _ payload _ :: tr => payload :: sends tr
  | _ :: tr => sends tr
  end.

(** The keys and kinds handed to the dispatcher's [Dispatch], in order. *)
Fixpoint dispatches (tr : list Action) : list (string * EventType) :=
  match tr with
  | [] => []
  | ActDispatch key kind _ :: tr => (key, kind) :: dispatches tr
  | _ :: tr => dispatches tr
  end.

(** [quiet w w']: from [w] to [w'] neither flag of the session changed and
    nothing was handed to the transport's [Send]. *)
Definition quiet (w w' : World) : Prop :=
  IsClosed (session w') = IsClosed (session w) /\
  IsNotificationStreamCreated (session w') = IsNotificationStreamCreated (session w) /\
  sends (trace w') = sends (trace w).

(** [sending requests w w']: from [w] to [w'] neither flag of the session
    changed and exactly [requests] were handed to the transport's [Send]. *)
Definition sending (requests : list string) (w w' : World) : Prop :=
  IsClosed (session w') = IsClosed (session w) /\
  IsNotificationStreamCreated (session w') = IsNotificationStreamCreated (session w) /\
  sends (trace w') = (sends (trace w) ++ requests)%list.

(** [durable_at key cb w]: [cb] is registered under [key] as a durable
    entry. *)
Definition durable_at (key : string) (cb : Callback) (w : World) : Prop :=
  listener w !! key = Some (mkRegistration cb Durable).

(** [silent w]: the connection has nothing more to deliver. *)
Definition silent (w : World) : Prop :=
  receive_answers (transport w) = [].

(** The calls a session takes, and one pass of its receive loop. *)
Inductive Op :=
| OpReceiveHello
| OpSendHello (hello : Hello)
| OpClose
| OpExecRPC (operation : RPCMethod)
| OpAsyncRPC (operation : RPCMethod) (callback : Callback)
| OpSyncRPC (fuel : nat) (sched : Schedule) (operation : RPCMethod)
| OpCreateNotificationStream (fuel : nat) (sched : Schedule)
    (stopTime startTime stream : string) (callback : Callback)
| OpListenPass.

Section Operations.
Context `{Catalog}.

(** Whether some capability advertises version 1.1. *)
Definition advertises_v11 (capabilities : list string) : bool :=
  existsb (fun c => strings.Contains c NetconfVersion11) capabilities.

(** The world an operation leaves behind. *)
Definition run (op : Op) (w : World) : World :=
  match op with
  | OpReceiveHello => snd (ReceiveHello w)
  | OpSendHello hello => snd (SendHello hello w)
  | OpClose => snd (Close w)
  | OpExecRPC operation => snd (ExecRPC operation w)
  | OpAsyncRPC operation callback => snd (AsyncRPC operation callback w)
  | OpSyncRPC fuel sched operation => snd (SyncRPC fuel sched operation w)
  | OpCreateNotificationStream fuel sched stopTime startTime stream callback =>
      snd (CreateNotificationStream fuel sched stopTime startTime stream callback w)
  | OpListenPass => snd (listen_iter w)
  end.

(** The request an operation marshals for the transport, if it gets that
    far. *)
Definition request_of (op : Op) (w : World) : list string :=
  match op with
  | OpSendHello hello =>
      match xml_Marshal_Hello hello with
      | inl val => [xml_Header +:+ val]
      | inr _ => []
      end
  | OpExecRPC operation
  | OpAsyncRPC operation _
  | OpSyncRPC _ _ operation =>
      match marshall operation with
      | inl request => [request]
      | inr _ => []
      end
  | OpCreateNotificationStream _ _ stopTime startTime stream _ =>
      if IsNotificationStreamCreated (session w) then []
      else
        match marshall (NewCreateSubscription stopTime startTime stream) with
        | inl request => [request]
        | inr _ => []
        end
  | OpReceiveHello | OpClose | OpListenPass => []
  end.

End Operations.

(** ** The default callbacks and capabilities (session.go) *)

(** [event.Notification()]: the notification, or nil when the event holds
    none. *)
Definition Event_Notification (e : Event) : option Notification :=
  match Event_Value e with
  | VReply _ => None
  | VNotification n => Some n
  end.

(** The closure returned by [DefaultLogRpcReplyCallback eventId], run on an
    event. *)
Definition DefaultLogRpcReplyCallback (eventId : string) (event : Event) (w : World)
  : Result unit * World :=
  let w := Remove eventId w in
  let reply := Event_RPCReply event in
  let w := match reply with
           | None => println "Failed to execute RPC" w
           | Some _ => w
           end in
  if String.eqb (EventID event) eventId then
    let w := println "Successfully executed RPC" w in
    match deref reply with
    | Panicked m => (Panicked m, w)
    | Returned reply => (Returned tt, println (RawReply reply) w)
    end
  else (Returned tt, w).

(** The closure returned by [DefaultLogNotificationCallback eventId], run on
    an event. *)
Definition DefaultLogNotificationCallback (eventId : string) (event : Event) (w : World)
  : Result unit * World :=
  let w := Remove eventId w in
  let reply := Event_Notification event in
  let w := match reply with
           | None => println "Failed to execute Notification" w
           | Some _ => w
           end in
  if String.eqb (EventID event) eventId then
    let w := println "Successfully executed Notification" w in
    match deref reply with
    | Panicked m => (Panicked m, w)
    | Returned reply => (Returned tt, println (Notification_RawReply reply) w)
    end
  else (Returned tt, w).

Section Defaults.
Context `{Catalog}.

(** [DefaultCapabilities] *)
Definition DefaultCapabilities : list string :=
  [NetconfVersion10; NetconfVersion11].

End Defaults.

(** The answers the transport's [Receive] gave, in order. *)
Fixpoint receives (tr : list Action) : list (string + error) :=
  match tr with
  | [] => []
  | ActReceive answer :: tr => answer :: receives tr
  | _ :: tr => receives tr
  end.

(** The callbacks that were run, each with its event, in order. *)
Fixpoint invocations (tr : list Action) : list (Callback * Event) :=
  match tr with
  | [] => []
  | ActInvoke cb e :: tr => (cb, e) :: invocations tr
  | _ :: tr => invocations tr
  end.

(** ** A catalog to run the code on

    A small catalog with the constants of the protocol and decoders that
    sniff the few elements the session looks at.  It is used to run the
    session code on concrete input. *)

Module lab.

(** What follows the first occurrence of [marker] in [s]. *)
Fixpoint after (marker s : string) : option string :=
  if strings.HasPrefix s marker then Some (String.substring (String.length marker) (String.length s) s)
  else
    match s with
    | EmptyString => None
    | String _ s' => after marker s'
    end.

(** What precedes the first occurrence of the character [stop] in [s]. *)
Fixpoint before (stop : Ascii.ascii) (s : string) : string :=
  match s with
  | EmptyString => EmptyString
  | String a s' => if Ascii.eqb a stop then EmptyString else String a (before stop s')
  end.

(** The texts of the elements opened by [open] in [s], in order. *)
Fixpoint texts (fuel : nat) (open s : string) : list string :=
  match fuel with
  | 0 => []
  | S fuel =>
      match after open s with
      | None => []
      | Some rest => before (Ascii.ascii_of_nat 60) rest :: texts fuel open rest
      end
  end.

Definition digit (a : Ascii.ascii) : Z := (Z.of_nat (Ascii.nat_of_ascii a) - 48)%Z.

Fixpoint number (acc : Z) (s : string) : Z :=
  match s with
  | EmptyString => acc
  | String a s' => number (10 * acc + digit a)%Z s'
  end.

Definition capability_elements (caps : list string) : string :=
  String.concat "" (map (fun c => "<capability>" +:+ c +:+ "</capability>") caps).

Definition Marshal_Hello (h : Hello) : string + error :=
  inl ("<hello><capabilities>" +:+ capability_elements (Hello_Capabilities h)
       +:+ "</capabilities></hello>").

Definition Unmarshal_Hello (raw : string) : Hello * option error :=
  if strings.Contains raw "</hello>" then
    (mkHello (number 0 (default "" (head (texts 1 "<session-id>" raw))))
             (texts (String.length raw) "<capability>" raw), None)
  else (zeroHello, Some "XML syntax error: unexpected EOF").

Definition Marshal (op : RPCMethod) : string + error :=
  if String.eqb (Body op) "chan" then inr "xml: unsupported type: chan int"
  else inl ("<rpc message-id='" +:+ GetMessageID op +:+ "'>" +:+ Body op +:+ "</rpc>").

Definition RPCReply_of (raw : string) : RPCReply + error :=
  if strings.Contains raw "</rpc-reply>" then
    inl (mkRPCReply (before (Ascii.ascii_of_nat 39) (default "" (after "message-id='" raw)))
                    (texts (String.length raw) "<error-message>" raw) raw)
  else inr "XML syntax error: unexpected EOF".

Definition handler : string := "DEFAULT_NOTIFICATION_STREAM".

Definition Notification_of (raw : string) : Notification + error :=
  if strings.Contains raw "</notification>" then inl (mkNotification handler raw)
  else inr "XML syntax error: unexpected EOF".

Definition CreateSubscription (stopTime startTime stream : string) : RPCMethod :=
  mkRPCMethod "subscribe-1"
    ("<create-subscription><stream>" +:+ stream +:+ "</stream></create-subscription>").

#[export] Instance catalog : Catalog := {|
  NetconfVersion10 := "urn:ietf:params:netconf:base:1.0";
  NetconfVersion11 := "urn:ietf:params:netconf:base:1.1";
  NetconfNotificationStreamHandler := handler;
  xml_Marshal_Hello := Marshal_Hello;
  xml_Unmarshal_Hello := Unmarshal_Hello;
  xml_Marshal := Marshal;
  NewRPCReply := RPCReply_of;
  NewNotification := Notification_of;
  NewCreateSubscription := CreateSubscription;
  fmt_Errors := fun errors => "[" +:+ String.concat " " errors +:+ "]";
|}.

(** A transport on which nothing has happened, with the answers the
    connection will give. *)
Definition wire (sends : list (option error)) (receives : list (string + error))
  : Transport :=
  mkTransport "" false sends receives None.

(** The server's Hello, advertising the given capabilities. *)
Definition server_hello (id : string) (caps : list string) : string :=
  "<hello><capabilities>" +:+ capability_elements caps +:+
  "</capabilities><session-id>" +:+ id +:+ "</session-id></hello>".

Definition reply_ok (id : string) : string :=
  "<rpc-reply message-id='" +:+ id +:+ "'><ok/></rpc-reply>".

Definition reply_error (id msg : string) : string :=
  "<rpc-reply message-id='" +:+ id +:+ "'><rpc-error><error-message>" +:+ msg
  +:+ "</error-message></rpc-error></rpc-reply>".

Definition v10 : string := "urn:ietf:params:netconf:base:1.0".
Definition v11 : string := "urn:ietf:params:netconf:base:1.1".

(** The Hello of this client. *)
Definition client_hello : Hello := mkHello 0 [v10; v11].

(** A session as [NewSession] builds it, from a peer that advertises
    [caps]; [sends] and [receives] are what the connection answers
    afterwards. *)
Definition fresh (caps : list string) (sends : list (option error))
    (receives : list (string + error)) : World :=
  NewSession (wire sends (inl (server_hello "7" caps) :: receives)).

(** The same session after [SendHello], its receive loop running. *)
Definition established (caps : list string) (sends : list (option error))
    (receives : list (string + error)) : World :=
  snd (SendHello client_hello (fresh caps (None :: sends) receives)).

Definition get_config : RPCMethod := mkRPCMethod "101" "<get-config/>".

(** An operation that [xml.Marshal] refuses. *)
Definition unsupported : RPCMethod := mkRPCMethod "102" "chan".

(** One pass of the receive loop during every sleep. *)
Definition steady : Schedule := fun _ => 1.

(** A subscriber's callback. *)
Definition on_event : Callback := UserCallback "on-event".

(** No pass of the receive loop during the first [n] sleeps, one pass
    during each sleep after them. *)
Definition late (n : nat) : Schedule := fun k => if Nat.ltb k n then 0 else 1.

End lab.

(** * Properties *)

(** ** Substring search *)

Lemma HasPrefix_spec (s p : string) :
  strings.HasPrefix s p = true <-> exists post, s = p +:+ post.
Proof.
  revert s; induction p as [|a p IH]; intros s; destruct s as [|b s]; simpl.
  - split; [intros _; exists ""; reflexivity | reflexivity].
  - split; [intros _; exists (String b s); reflexivity | reflexivity].
  - split; [discriminate | intros [post Hpost]; discriminate].
  - destruct (Ascii.eqb_spec a b) as [->|Hne].
    + rewrite IH. split; intros [post Hpost]; exists post.
      * now rewrite Hpost.
      * now inversion Hpost.
    + split; [discriminate|]. intros [post Hpost].
      inversion Hpost. congruence.
Qed.

Lemma Contains_spec (s substr : string) :
  strings.Contains s substr = true <-> exists pre post, s = pre +:+ substr +:+ post.
Proof.
  induction s as [|b s IH]; cbn [strings.Contains].
  - rewrite orb_false_r, HasPrefix_spec. split.
    + intros [post Hpost]. exists "", post. exact Hpost.
    + intros [pre [post Hpost]]. destruct pre; [|discriminate].
      exists post. exact Hpost.
  - rewrite orb_true_iff, HasPrefix_spec, IH. split.
    + intros [[post Hpost]|[pre [post Hpost]]].
      * exists "", post. exact Hpost.
      * exists (String b pre), post. simpl. now rewrite Hpost.
    + intros [pre [post Hpost]]. destruct pre as [|c pre].
      * left. exists post. exact Hpost.
      * right. simpl in Hpost. inversion Hpost. now exists pre, post.
Qed.

(** ** The handshake *)

Section Handshake.
Context `{Catalog}.


Lemma select_version_exists (capabilities : list string) (w : World) :
  select_version capabilities w =
  if advertises_v11 capabilities then Transport_SetVersion "v1.1" w else w.
Proof.
  induction capabilities as [|c rest IH]; simpl; [reflexivity|].
  destruct (strings.Contains c NetconfVersion11); simpl; [reflexivity | exact IH].
Qed.



End Handshake.

(** ** Construction *)

Section Construction.
Context `{Catalog}.

(** C5 (as amended). NewSession always returns a constructed session.  The
    error of ReceiveHello is discarded: the session takes its id and its
    capabilities from the Hello value ReceiveHello returned, whatever the
    error, and that value is the zero Hello when the receive failed. *)
Theorem NewSession_discards_error (t : Transport) :
  let r := ReceiveHello (new_Session t) in
  let hello := fst (fst r) in
  NewSession t =
    with_session (set_Listener Dispatcher_init)
      (with_session (set_Hello hello) (snd r)) /\
  SessionID (session (NewSession t)) = Hello_SessionID hello /\
  Capabilities (session (NewSession t)) = Hello_Capabilities hello /\
  (forall e, fst (Transport_Receive (new_Session t)) = inr e ->
     snd (fst r) = Some e /\
     SessionID (session (NewSession t)) = 0%Z /\
     Capabilities (session (NewSession t)) = []).
Proof.
  cbv zeta. unfold NewSession.
  destruct (ReceiveHello (new_Session t)) as [[hello err] w] eqn:Hr.
  cbn [fst snd]. split; [reflexivity|]. split; [reflexivity|]. split; [reflexivity|].
  intros e He. revert Hr He. unfold ReceiveHello, Transport_Receive.
  cbn [new_Session with_session session set_IsClosed transport Session_Transport
       transport_closed].
  destruct (transport_closed t); cbn [fst snd]; intros Hr He.
  - inversion He; subst. now inversion Hr.
  - rewrite He in Hr. now inversion Hr.
Qed.

End Construction.

(** ** Asynchronous calls *)

Section Async.
Context `{Catalog}.

(** C10. AsyncRPC returns a marshalling error before it registers or sends
    anything.  Otherwise it registers the callback under the operation's
    message id and then sends; what it returns is the answer of the send,
    and the registration is in the dispatcher afterwards, also when the
    send failed. *)
Theorem AsyncRPC_registers_before_send
    (operation : RPCMethod) (callback : Callback) (w : World) :
  (forall e, marshall operation = inr e ->
     AsyncRPC operation callback w = (Some e, w)) /\
  (forall request, marshall operation = inl request ->
     let id := GetMessageID operation in
     let err := fst (AsyncRPC operation callback w) in
     let w' := snd (AsyncRPC operation callback w) in
     err = fst (Transport_Send request w) /\
     trace w' = (trace w ++
       [ActRegister id callback;
        ActPrint (newline +:+ "Sending RPC");
        ActSend (version (transport w)) request err])%list /\
     listener w' = <[id := mkRegistration callback (persistence_of id)]> (listener w) /\
     listener w' !! id = Some (mkRegistration callback (persistence_of id)) /\
     (id <> NetconfNotificationStreamHandler ->
      listener w' !! id = Some (mkRegistration callback SingleShot))).
Proof.
  split.
  - intros e He. unfold AsyncRPC. now rewrite He.
  - intros request Hreq. cbv zeta. unfold AsyncRPC. rewrite Hreq.
    cbn -[String.append newline].
    assert (Hret : forall (o : option error) (v : World),
               match o with Some err => (Some err, v) | None => (None, v) end = (o, v))
      by (now intros [e|] v).
    rewrite Hret. cbn -[String.append newline].
    repeat split.
    + now rewrite <- !app_assoc.
    + apply lookup_insert_eq.
    + intros Hne. rewrite lookup_insert_eq. unfold persistence_of.
      destruct (String.eqb_spec (GetMessageID operation) NetconfNotificationStreamHandler);
        [contradiction | reflexivity].
Qed.

End Async.

(** ** Traces *)

Lemma sends_app (tr1 tr2 : list Action) :
  sends (tr1 ++ tr2) = (sends tr1 ++ sends tr2)%list.
Proof.
  induction tr1 as [|a tr1 IH]; [reflexivity|].
  destruct a; simpl; rewrite ?IH; reflexivity.
Qed.

Lemma dispatches_app (tr1 tr2 : list Action) :
  dispatches (tr1 ++ tr2) = (dispatches tr1 ++ dispatches tr2)%list.
Proof.
  induction tr1 as [|a tr1 IH]; [reflexivity|].
  destruct a; simpl; rewrite ?IH; reflexivity.
Qed.

(** ** The receive loop *)

Section ReceiveLoop.
Context `{Catalog}.

(** C8. A payload that was received is classified by what it contains.  With
    the reply marker it is decoded as a reply, which is dispatched under its
    message id with kind 0; without it but with the notification marker it
    is decoded as a notification, which is dispatched under its subscription
    id with kind 1; with neither it is printed as unknown and nothing is
    dispatched.  The check of the closed flag follows in each case. *)
Theorem listen_iter_classifies (w w1 : World) (rawXML : string) :
  Transport_Receive w = (inl rawXML, w1) ->
  (strings.Contains rawXML "<rpc-reply" = true ->
   forall rpcReply, NewRPCReply rawXML = inl rpcReply ->
     listen_iter w =
       after_dispatch (Dispatch (MessageID rpcReply) EventReply (VReply rpcReply) w1)) /\
  (strings.Contains rawXML "<rpc-reply" = false ->
   strings.Contains rawXML "<notification" = true ->
   forall notification, NewNotification rawXML = inl notification ->
     listen_iter w =
       after_dispatch
         (Dispatch (SubscriptionID notification) EventNotification
                   (VNotification notification) w1)) /\
  (strings.Contains rawXML "<rpc-reply" = false ->
   strings.Contains rawXML "<notification" = false ->
   listen_iter w =
     check_closed (println ("unknown received message: " +:+ newline +:+ rawXML) w1) /\
   dispatches (trace (snd (listen_iter w))) = dispatches (trace w1) /\
   listener (snd (listen_iter w)) = listener w1).
Proof.
  intros Hrecv. unfold listen_iter. rewrite Hrecv. split; [|split].
  - intros Hreply rpcReply Hdecode. now rewrite Hreply, Hdecode.
  - intros Hreply Hnotif notification Hdecode. now rewrite Hreply, Hnotif, Hdecode.
  - intros Hreply Hnotif. rewrite Hreply, Hnotif. split; [reflexivity|].
    unfold check_closed, println.
    cbn [emit session trace]. 
    destruct (IsClosed (session w1)); cbn [snd emit trace session receive_loops cells].
    + split; [|reflexivity]. rewrite !dispatches_app. simpl. now rewrite !app_nil_r.
    + split; [|reflexivity]. rewrite !dispatches_app. simpl. now rewrite !app_nil_r.
Qed.

End ReceiveLoop.

(** ** What the dispatcher and the receive loop leave alone *)

Section Quiet.
Context `{Catalog}.

Lemma quiet_refl (w : World) : quiet w w.
Proof. repeat split. Qed.

Lemma quiet_trans (w1 w2 w3 : World) : quiet w1 w2 -> quiet w2 w3 -> quiet w1 w3.
Proof.
  intros (Hc1 & Hs1 & Ht1) (Hc2 & Hs2 & Ht2).
  repeat split; congruence.
Qed.

Lemma quiet_emit (a : Action) (w : World) : sends [a] = [] -> quiet w (emit a w).
Proof.
  intros Ha. repeat split. cbn [emit trace].
  now rewrite sends_app, Ha, app_nil_r.
Qed.

Lemma quiet_println (line : string) (w : World) : quiet w (println line w).
Proof. now apply quiet_emit. Qed.

Lemma quiet_Transport_Receive (w : World) : quiet w (snd (Transport_Receive w)).
Proof.
  unfold Transport_Receive. destruct (transport_closed (transport w)); cbn [snd].
  - now apply quiet_emit.
  - eapply quiet_trans; [|now apply quiet_emit]. repeat split.
Qed.

Lemma quiet_Transport_SetVersion (v : string) (w : World) :
  quiet w (Transport_SetVersion v w).
Proof.
  unfold Transport_SetVersion.
  eapply quiet_trans; [|now apply quiet_emit]. repeat split.
Qed.

Lemma quiet_Transport_Close (w : World) : quiet w (snd (Transport_Close w)).
Proof.
  unfold Transport_Close. cbn [snd].
  eapply quiet_trans; [|now apply quiet_emit]. repeat split.
Qed.

Lemma quiet_Register (key : string) (cb : Callback) (w : World) :
  quiet w (Register key cb w).
Proof.
  unfold Register. eapply quiet_trans; [|now apply quiet_emit]. repeat split.
Qed.

Lemma quiet_Remove (key : string) (w : World) : quiet w (Remove key w).
Proof. repeat split. Qed.

Lemma quiet_invoke (cb : Callback) (e : Event) (w : World) :
  quiet w (snd (invoke cb e w)).
Proof.
  unfold invoke. destruct cb as [name|c]; cbn [snd].
  - now apply quiet_emit.
  - destruct (Event_RPCReply e) as [r|]; cbn [snd].
    + eapply quiet_trans; [now apply (quiet_emit (ActInvoke (SyncRPCCallback c) e))|].
      eapply quiet_trans; [|apply quiet_println].
      eapply quiet_trans; [|apply quiet_println]. repeat split.
    + now apply quiet_emit.
Qed.

Lemma quiet_Dispatch (key : string) (kind : EventType) (v : Value) (w : World) :
  quiet w (snd (Dispatch key kind v w)).
Proof.
  unfold Dispatch.
  eapply quiet_trans; [now apply (quiet_emit (ActDispatch key kind v))|].
  destruct (listener (emit (ActDispatch key kind v) w) !! key) as [reg|];
    [|apply quiet_refl].
  pose proof (quiet_invoke (consumer reg) (mkEvent key kind v)
                (emit (ActDispatch key kind v) w)) as Hq.
  destruct (invoke (consumer reg) (mkEvent key kind v)
              (emit (ActDispatch key kind v) w)) as [[u|m] w1].
  - destruct (persistence reg); cbn [snd] in *; [|exact Hq].
    eapply quiet_trans; [exact Hq | apply quiet_Remove].
  - exact Hq.
Qed.

Lemma quiet_check_closed (w : World) : quiet w (snd (check_closed w)).
Proof.
  unfold check_closed. destruct (IsClosed (session w)); cbn [snd].
  - apply quiet_println.
  - apply quiet_refl.
Qed.

Lemma quiet_after_dispatch (r : Result unit * World) :
  quiet (snd r) (snd (after_dispatch r)).
Proof.
  destruct r as [[u|m] w]; cbn [after_dispatch snd].
  - apply quiet_check_closed.
  - apply quiet_refl.
Qed.

Lemma quiet_listen_iter (w : World) : quiet w (snd (listen_iter w)).
Proof.
  unfold listen_iter.
  pose proof (quiet_Transport_Receive w) as Hr.
  destruct (Transport_Receive w) as [[rawXML|err] w1]; cbn [snd] in *.
  - destruct (strings.Contains rawXML "<rpc-reply").
    + destruct (NewRPCReply rawXML) as [rpcReply|err]; cbn [snd].
      * eapply quiet_trans; [exact Hr|].
        eapply quiet_trans; [apply quiet_Dispatch | apply quiet_after_dispatch].
      * eapply quiet_trans; [exact Hr | apply quiet_println].
    + destruct (strings.Contains rawXML "<notification").
      * destruct (NewNotification rawXML) as [notification|err]; cbn [snd].
        -- eapply quiet_trans; [exact Hr|].
           eapply quiet_trans; [apply quiet_Dispatch | apply quiet_after_dispatch].
        -- eapply quiet_trans; [exact Hr | apply quiet_println].
      * eapply quiet_trans; [exact Hr|].
        eapply quiet_trans; [apply quiet_println | apply quiet_check_closed].
  - eapply quiet_trans; [exact Hr | apply quiet_println].
Qed.

Lemma quiet_background (n : nat) (w : World) : quiet w (snd (background n w)).
Proof.
  revert w; induction n as [|n IH]; intros w; cbn [background];
    [apply quiet_refl|].
  destruct (receive_loops w); [apply quiet_refl|].
  pose proof (quiet_listen_iter w) as Hq.
  destruct (listen_iter w) as [[[|]|m] w1]; cbn [snd] in *.
  - eapply quiet_trans; [exact Hq | apply IH].
  - eapply quiet_trans; [exact Hq|].
    eapply quiet_trans; [|apply IH]. repeat split.
  - exact Hq.
Qed.

Lemma quiet_await_reply (fuel : nat) (sched : Schedule) (k c : nat) (w : World) :
  quiet w (snd (await_reply fuel sched k c w)).
Proof.
  revert k w; induction fuel as [|fuel IH]; intros k w; cbn [await_reply];
    (destruct (cell_received c w); [apply quiet_refl|]); [apply quiet_refl|].
  pose proof (quiet_background (sched k) (emit ActSleep w)) as Hq.
  destruct (background (sched k) (emit ActSleep w)) as [[u|m] w1]; cbn [snd] in *.
  - eapply quiet_trans; [now apply (quiet_emit ActSleep)|].
    eapply quiet_trans; [exact Hq | apply IH].
  - eapply quiet_trans; [now apply (quiet_emit ActSleep) | exact Hq].
Qed.

End Quiet.

(** ** The closed flag *)

Section ClosedFlag.
Context `{Catalog}.

Lemma quiet_sending (w w' : World) : quiet w w' -> sending [] w w'.
Proof.
  intros (Hc & Hs & Ht). repeat split; auto. now rewrite app_nil_r.
Qed.

Lemma sending_trans (l1 l2 : list string) (w1 w2 w3 : World) :
  sending l1 w1 w2 -> sending l2 w2 w3 -> sending (l1 ++ l2) w1 w3.
Proof.
  intros (Hc1 & Hs1 & Ht1) (Hc2 & Hs2 & Ht2).
  repeat split; try congruence. now rewrite Ht2, Ht1, app_assoc.
Qed.

Lemma sending_quiet_l (l : list string) (w1 w2 w3 : World) :
  quiet w1 w2 -> sending l w2 w3 -> sending l w1 w3.
Proof.
  intros Hq Hs. apply quiet_sending in Hq.
  exact (sending_trans [] l w1 w2 w3 Hq Hs).
Qed.

Lemma sending_quiet_r (l : list string) (w1 w2 w3 : World) :
  sending l w1 w2 -> quiet w2 w3 -> sending l w1 w3.
Proof.
  intros Hs Hq. apply quiet_sending in Hq.
  pose proof (sending_trans l [] w1 w2 w3 Hs Hq) as Hss.
  now rewrite app_nil_r in Hss.
Qed.

Lemma sending_Transport_Send (data : string) (w : World) :
  sending [data] w (snd (Transport_Send data w)).
Proof.
  unfold Transport_Send. cbn [snd]. repeat split.
  cbn [emit trace with_session]. now rewrite sends_app.
Qed.

Lemma quiet_select_version (capabilities : list string) (w : World) :
  quiet w (select_version capabilities w).
Proof.
  rewrite select_version_exists. destruct (advertises_v11 capabilities).
  - apply quiet_Transport_SetVersion.
  - apply quiet_refl.
Qed.

Lemma quiet_listen (w : World) : quiet w (listen w).
Proof.
  unfold listen. eapply quiet_trans; [|now apply quiet_emit]. repeat split.
Qed.

Lemma sending_SendHello (hello : Hello) (w : World) :
  sending (request_of (OpSendHello hello) w) w (snd (SendHello hello w)).
Proof.
  unfold SendHello, request_of.
  destruct (xml_Marshal_Hello hello) as [val|err]; cbn [snd];
    [|apply quiet_sending, quiet_refl].
  pose proof (sending_Transport_Send (xml_Header +:+ val) w) as Hs.
  destruct (Transport_Send (xml_Header +:+ val) w) as [err w1]; cbn [snd] in *.
  eapply sending_quiet_r; [exact Hs|].
  eapply quiet_trans; [apply quiet_Transport_SetVersion|].
  eapply quiet_trans; [apply quiet_select_version | apply quiet_listen].
Qed.

Lemma sending_ExecRPC (operation : RPCMethod) (w : World) :
  sending (request_of (OpExecRPC operation) w) w (snd (ExecRPC operation w)).
Proof.
  unfold ExecRPC, request_of, marshall.
  destruct (xml_Marshal operation) as [request|err]; cbn [snd];
    [|apply quiet_sending, quiet_refl].
  eapply sending_quiet_l; [apply quiet_println|].
  match goal with |- context [Transport_Send ?d ?v] =>
    pose proof (sending_Transport_Send d v) as Hs;
    destruct (Transport_Send d v) as [[err|] w1]; cbn [snd] in *
  end; [exact Hs|].
  eapply sending_quiet_r; [exact Hs|].
  eapply quiet_trans; [apply quiet_println|].
  match goal with |- context [Transport_Receive ?v] =>
    pose proof (quiet_Transport_Receive v) as Hr;
    destruct (Transport_Receive v) as [[rawXML|err] w2]; cbn [snd] in *
  end; [|exact Hr].
  now destruct (NewRPCReply rawXML).
Qed.

Lemma sending_AsyncRPC (operation : RPCMethod) (callback : Callback) (w : World) :
  sending (request_of (OpAsyncRPC operation callback) w) w
          (snd (AsyncRPC operation callback w)).
Proof.
  unfold AsyncRPC, request_of.
  destruct (marshall operation) as [request|err]; cbn [snd];
    [|apply quiet_sending, quiet_refl].
  eapply sending_quiet_l;
    [eapply quiet_trans; [apply quiet_Register | apply quiet_println]|].
  match goal with |- context [Transport_Send ?d ?v] =>
    pose proof (sending_Transport_Send d v) as Hs;
    destruct (Transport_Send d v) as [[err|] w1]; cbn [snd] in *
  end; exact Hs.
Qed.

Lemma sending_SyncRPC (fuel : nat) (sched : Schedule) (operation : RPCMethod)
    (w : World) :
  sending (request_of (OpSyncRPC fuel sched operation) w) w
          (snd (SyncRPC fuel sched operation w)).
Proof.
  unfold SyncRPC, request_of.
  destruct (marshall operation) as [request|err]; cbn [snd];
    [|apply quiet_sending, quiet_refl].
  eapply sending_quiet_l;
    [eapply quiet_trans;
       [|eapply quiet_trans; [apply quiet_Register | apply quiet_println]]|].
  { instantiate (1 := with_cells _ w). repeat split. }
  match goal with |- context [Transport_Send ?d ?v] =>
    pose proof (sending_Transport_Send d v) as Hs;
    destruct (Transport_Send d v) as [[err|] w1]; cbn [snd] in *
  end; [exact Hs|].
  eapply sending_quiet_r; [exact Hs | apply quiet_await_reply].
Qed.

Lemma CreateNotificationStream_closed_sends (fuel : nat) (sched : Schedule)
    (stopTime startTime stream : string) (callback : Callback) (w : World) :
  let op := OpCreateNotificationStream fuel sched stopTime startTime stream callback in
  IsClosed (session (run op w)) = IsClosed (session w) /\
  sends (trace (run op w)) = (sends (trace w) ++ request_of op w)%list.
Proof.
  cbv zeta. unfold run, CreateNotificationStream, request_of.
  destruct (IsNotificationStreamCreated (session w)); cbn [snd];
    [now rewrite app_nil_r|].
  set (sub := NewCreateSubscription stopTime startTime stream).
  set (w0 := Register NetconfNotificationStreamHandler callback w).
  assert (Hs : sending (request_of (OpSyncRPC fuel sched sub) w0) w
                       (snd (SyncRPC fuel sched sub w0))).
  { eapply sending_quiet_l; [apply quiet_Register | apply sending_SyncRPC]. }
  cbn [request_of] in Hs. destruct Hs as (Hc & _ & Ht).
  destruct (SyncRPC fuel sched sub w0) as [[[[rpc err]|m]|] w1]; cbn [snd] in *;
    [|now split..].
  destruct err as [e|]; destruct rpc as [r|]; cbn [deref];
    try (now split).
  destruct (negb (length (Errors r) =? 0)%nat); now split.
Qed.

(** C3 (as amended). Close sets the closed flag and ReceiveHello resets it
    to false, whatever it was; every other operation, and every pass of the
    receive loop, leaves the flag as it is.  The flag does not gate the
    sends: what an operation hands to the transport's Send is the request it
    marshals, whether the flag is set or not. *)
Theorem closed_flag_of_operations (op : Op) (w : World) :
  IsClosed (session (run op w)) =
    match op with
    | OpClose => true
    | OpReceiveHello => false
    | _ => IsClosed (session w)
    end /\
  sends (trace (run op w)) = (sends (trace w) ++ request_of op w)%list.
Proof.
  destruct op as [|hello| |operation|operation callback|fuel sched operation
                 |fuel sched stopTime startTime stream callback|].
  - cbn [run request_of]. unfold ReceiveHello.
    pose proof (quiet_Transport_Receive (with_session (set_IsClosed false) w))
      as (Hc & _ & Ht).
    destruct (Transport_Receive (with_session (set_IsClosed false) w))
      as [[val|err] w1]; cbn [snd] in *; now rewrite app_nil_r.
  - destruct (sending_SendHello hello w) as (Hc & _ & Ht). now split.
  - cbn [run request_of]. unfold Close.
    destruct (quiet_Transport_Close (with_session (set_IsClosed true) w))
      as (Hc & _ & Ht).
    now rewrite app_nil_r.
  - destruct (sending_ExecRPC operation w) as (Hc & _ & Ht). now split.
  - destruct (sending_AsyncRPC operation callback w) as (Hc & _ & Ht). now split.
  - destruct (sending_SyncRPC fuel sched operation w) as (Hc & _ & Ht). now split.
  - apply CreateNotificationStream_closed_sends.
  - destruct (quiet_listen_iter w) as (Hc & _ & Ht).
    cbn [run request_of]. now rewrite app_nil_r.
Qed.

End ClosedFlag.

(** ** Notification streams *)

Section Streams.
Context `{Catalog}.

Lemma listener_Transport_Receive (w : World) :
  listener (snd (Transport_Receive w)) = listener w.
Proof.
  unfold Transport_Receive. now destruct (transport_closed (transport w)).
Qed.

Lemma listener_Transport_Send (data : string) (w : World) :
  listener (snd (Transport_Send data w)) = listener w.
Proof. reflexivity. Qed.

Lemma listener_invoke (cb : Callback) (e : Event) (w : World) :
  listener (snd (invoke cb e w)) = listener w.
Proof.
  unfold invoke. destruct cb as [name|c]; [reflexivity|].
  now destruct (Event_RPCReply e).
Qed.

Lemma listener_check_closed (w : World) :
  listener (snd (check_closed w)) = listener w.
Proof. unfold check_closed. now destruct (IsClosed (session w)). Qed.

Lemma durable_Register (k key : string) (cb cb' : Callback) (w : World) :
  key <> k -> durable_at k cb w -> durable_at k cb (Register key cb' w).
Proof.
  intros Hne Hd. unfold durable_at, Register, listener in *.
  cbn [emit with_session session set_Listener Listener callbacks].
  now rewrite lookup_insert_ne.
Qed.

Lemma durable_Dispatch (k key : string) (cb : Callback) (kind : EventType)
    (v : Value) (w : World) :
  durable_at k cb w -> durable_at k cb (snd (Dispatch key kind v w)).
Proof.
  intros Hd. unfold Dispatch.
  set (w0 := emit (ActDispatch key kind v) w).
  assert (Hd0 : durable_at k cb w0) by exact Hd.
  destruct (listener w0 !! key) as [reg|] eqn:Hreg; [|exact Hd0].
  pose proof (listener_invoke (consumer reg) (mkEvent key kind v) w0) as Hl.
  destruct (invoke (consumer reg) (mkEvent key kind v) w0) as [[u|m] w1];
    cbn [snd] in *.
  - destruct (persistence reg) eqn:Hp; cbn [snd].
    + unfold durable_at, Remove, listener in *.
      cbn [with_session session set_Listener Listener callbacks].
      destruct (decide (key = k)) as [->|Hne].
      * rewrite Hd0 in Hreg. inversion Hreg; subst. discriminate Hp.
      * rewrite lookup_delete_ne by exact Hne. now rewrite Hl.
    + unfold durable_at. now rewrite Hl.
  - unfold durable_at. now rewrite Hl.
Qed.

Lemma durable_after_dispatch (k : string) (cb : Callback) (r : Result unit * World) :
  durable_at k cb (snd r) -> durable_at k cb (snd (after_dispatch r)).
Proof.
  destruct r as [[u|m] w]; cbn [after_dispatch snd]; [|auto].
  unfold durable_at. now rewrite listener_check_closed.
Qed.

Lemma durable_listen_iter (k : string) (cb : Callback) (w : World) :
  durable_at k cb w -> durable_at k cb (snd (listen_iter w)).
Proof.
  intros Hd. unfold listen_iter.
  pose proof (listener_Transport_Receive w) as Hl.
  destruct (Transport_Receive w) as [[rawXML|err] w1]; cbn [snd] in *.
  - assert (Hd1 : durable_at k cb w1) by (unfold durable_at; now rewrite Hl).
    destruct (strings.Contains rawXML "<rpc-reply").
    + destruct (NewRPCReply rawXML) as [rpcReply|err]; cbn [snd].
      * now apply durable_after_dispatch, durable_Dispatch.
      * exact Hd1.
    + destruct (strings.Contains rawXML "<notification").
      * destruct (NewNotification rawXML) as [notification|err]; cbn [snd].
        -- now apply durable_after_dispatch, durable_Dispatch.
        -- exact Hd1.
      * unfold durable_at. now rewrite listener_check_closed.
  - unfold durable_at in *. unfold println.
    change (listener (emit (ActPrint ("failed to receive message " +:+ err)) w1))
      with (listener w1).
    now rewrite Hl.
Qed.

Lemma durable_background (k : string) (cb : Callback) (n : nat) (w : World) :
  durable_at k cb w -> durable_at k cb (snd (background n w)).
Proof.
  revert w; induction n as [|n IH]; intros w Hd; cbn [background]; [exact Hd|].
  destruct (receive_loops w); [exact Hd|].
  pose proof (durable_listen_iter k cb w Hd) as Hd1.
  destruct (listen_iter w) as [[[|]|m] w1]; cbn [snd] in *.
  - now apply IH.
  - now apply IH.
  - exact Hd1.
Qed.

Lemma durable_await_reply (k : string) (cb : Callback) (fuel : nat)
    (sched : Schedule) (i c : nat) (w : World) :
  durable_at k cb w -> durable_at k cb (snd (await_reply fuel sched i c w)).
Proof.
  revert i w; induction fuel as [|fuel IH]; intros i w Hd; cbn [await_reply];
    (destruct (cell_received c w); [exact Hd|]); [exact Hd|].
  pose proof (durable_background k cb (sched i) (emit ActSleep w) Hd) as Hd1.
  destruct (background (sched i) (emit ActSleep w)) as [[u|m] w1]; cbn [snd] in *.
  - now apply IH.
  - exact Hd1.
Qed.

Lemma durable_SyncRPC (k : string) (cb : Callback) (fuel : nat) (sched : Schedule)
    (operation : RPCMethod) (w : World) :
  GetMessageID operation <> k ->
  durable_at k cb w -> durable_at k cb (snd (SyncRPC fuel sched operation w)).
Proof.
  intros Hne Hd. unfold SyncRPC.
  destruct (marshall operation) as [request|err]; cbn [snd]; [|exact Hd].
  match goal with |- context [Transport_Send ?d ?v] =>
    assert (Hd1 : durable_at k cb v);
    [|pose proof (listener_Transport_Send d v) as Hl;
      destruct (Transport_Send d v) as [[err|] w1]; cbn [snd] in *]
  end.
  - unfold println. apply (durable_Register k _ cb _ _ Hne). exact Hd.
  - unfold durable_at. now rewrite Hl.
  - apply durable_await_reply. unfold durable_at. now rewrite Hl.
Qed.

Lemma persistence_of_handler :
  persistence_of NetconfNotificationStreamHandler = Durable.
Proof. unfold persistence_of. now rewrite String.eqb_refl. Qed.

Lemma durable_Register_handler (cb : Callback) (w : World) :
  durable_at NetconfNotificationStreamHandler cb
             (Register NetconfNotificationStreamHandler cb w).
Proof.
  unfold durable_at, Register, listener.
  cbn [emit with_session session set_Listener Listener callbacks].
  now rewrite lookup_insert_eq, persistence_of_handler.
Qed.

(** C7. With a subscription already active, CreateNotificationStream
    returns the conflict error at once: the world it leaves is the world it
    found, so neither the session nor the dispatcher changed and the
    registration of the first subscription is as it was. *)
Theorem CreateNotificationStream_conflict (fuel : nat) (sched : Schedule)
    (stopTime startTime stream : string) (callback : Callback) (w : World) :
  IsNotificationStreamCreated (session w) = true ->
  CreateNotificationStream fuel sched stopTime startTime stream callback w =
    (Some (Returned (Some subscription_conflict)), w).
Proof.
  intros Hactive. unfold CreateNotificationStream. now rewrite Hactive.
Qed.

(** C9. When the SyncRPC call inside CreateNotificationStream returns an
    error together with a nil reply, reading the reply's error list
    dereferences nil: the call panics and returns no error. *)
Theorem CreateNotificationStream_nil_reply_panics (fuel : nat) (sched : Schedule)
    (stopTime startTime stream : string) (callback : Callback) (w w' : World)
    (e : error) :
  IsNotificationStreamCreated (session w) = false ->
  SyncRPC fuel sched (NewCreateSubscription stopTime startTime stream)
          (Register NetconfNotificationStreamHandler callback w)
    = (Some (Returned (None, Some e)), w') ->
  CreateNotificationStream fuel sched stopTime startTime stream callback w =
    (Some (Panicked nil_dereference), w').
Proof.
  intros Hfree Hsync. unfold CreateNotificationStream. now rewrite Hfree, Hsync.
Qed.

(** Every error that SyncRPC returns comes with a nil reply. *)
Lemma SyncRPC_error_nil_reply (fuel : nat) (sched : Schedule)
    (operation : RPCMethod) (w w' : World) (rpc : option RPCReply) (e : error) :
  SyncRPC fuel sched operation w = (Some (Returned (rpc, Some e)), w') ->
  rpc = None.
Proof.
  unfold SyncRPC. destruct (marshall operation) as [request|err];
    [|intros Heq; now inversion Heq].
  match goal with |- context [Transport_Send ?d ?v] =>
    destruct (Transport_Send d v) as [[err|] w1]
  end; [intros Heq; now inversion Heq|].
  generalize 0. revert w1. induction fuel as [|fuel IH]; intros w1 k; cbn [await_reply];
    (destruct (cell_received (length (cells w)) w1); [intros Heq; inversion Heq|]);
    [intros Heq; inversion Heq|].
  destruct (background (sched k) (emit ActSleep w1)) as [[u|m] w2].
  - apply IH.
  - intros Heq; inversion Heq.
Qed.

(** C6 (as amended). When the reply to the create-subscription request
    carries protocol-level errors, CreateNotificationStream returns a
    descriptive error and leaves the subscription inactive; the callback it
    registered under the notification handler key before sending is still
    registered there, as a durable entry. *)
Theorem CreateNotificationStream_reply_errors (fuel : nat) (sched : Schedule)
    (stopTime startTime stream : string) (callback : Callback) (w w' : World)
    (rpc : RPCReply) :
  IsNotificationStreamCreated (session w) = false ->
  GetMessageID (NewCreateSubscription stopTime startTime stream)
    <> NetconfNotificationStreamHandler ->
  SyncRPC fuel sched (NewCreateSubscription stopTime startTime stream)
          (Register NetconfNotificationStreamHandler callback w)
    = (Some (Returned (Some rpc, None)), w') ->
  Errors rpc <> [] ->
  CreateNotificationStream fuel sched stopTime startTime stream callback w =
    (Some (Returned (Some (subscription_failed (Errors rpc) None))), w') /\
  listener w' !! NetconfNotificationStreamHandler =
    Some (mkRegistration callback Durable) /\
  IsNotificationStreamCreated (session w') = false.
Proof.
  intros Hfree Hid Hsync Herrors. split; [|split].
  - unfold CreateNotificationStream. rewrite Hfree, Hsync. cbn [deref].
    destruct (Errors rpc) as [|e errors]; [contradiction | reflexivity].
  - pose proof (durable_SyncRPC NetconfNotificationStreamHandler callback fuel sched
                  (NewCreateSubscription stopTime startTime stream)
                  (Register NetconfNotificationStreamHandler callback w) Hid
                  (durable_Register_handler callback w)) as Hd.
    now rewrite Hsync in Hd.
  - pose proof (sending_SyncRPC fuel sched
                  (NewCreateSubscription stopTime startTime stream)
                  (Register NetconfNotificationStreamHandler callback w))
      as (_ & Hstream & _).
    rewrite Hsync in Hstream. cbn [snd] in Hstream.
    now rewrite Hstream.
Qed.

End Streams.

(** ** A connection that delivers nothing *)

Section NoDelivery.
Context `{Catalog}.

(** When the transport is closed or has nothing left to deliver, [Receive]
    fails and changes nothing but the trace. *)
Lemma Transport_Receive_fails (w : World) :
  transport_closed (transport w) = true \/ silent w ->
  exists e w',
    Transport_Receive w = (inr e, w') /\
    session w' = session w /\ cells w' = cells w /\
    receive_loops w' = receive_loops w.
Proof.
  intros Hdown. unfold Transport_Receive.
  destruct (transport_closed (transport w)) eqn:Hclosed.
  - now eexists _, _.
  - destruct Hdown as [Hc|Hsilent]; [discriminate|].
    unfold silent in Hsilent. rewrite Hsilent. cbn [head tail default].
    eexists _, _. split; [reflexivity|]. split; [|now split].
    destruct w as [[t id caps closed l active] cs loops tr].
    destruct t as [v tc sa ra ca]. cbn in *. now subst.
Qed.

(** A failed receive is printed and the loop goes round again; the closed
    flag is not looked at. *)
Lemma listen_iter_receive_error (w w1 : World) (err : error) :
  Transport_Receive w = (inr err, w1) ->
  listen_iter w =
    (Returned Continue, println ("failed to receive message " +:+ err) w1).
Proof. intros Hrecv. unfold listen_iter. now rewrite Hrecv. Qed.

(** A payload with a known marker that fails to decode is printed and
    dropped, and the loop goes round again. *)
Lemma listen_iter_decode_failure (w w1 : World) (rawXML : string) (err : error) :
  Transport_Receive w = (inl rawXML, w1) ->
  (strings.Contains rawXML "<rpc-reply" = true ->
   NewRPCReply rawXML = inr err ->
   listen_iter w =
     (Returned Continue,
      println ("failed to marshall message into an RPCReply. " +:+ err) w1)) /\
  (strings.Contains rawXML "<rpc-reply" = false ->
   strings.Contains rawXML "<notification" = true ->
   NewNotification rawXML = inr err ->
   listen_iter w =
     (Returned Continue,
      println ("failed to marshall message into an Notification. " +:+ err) w1)).
Proof.
  intros Hrecv. unfold listen_iter. rewrite Hrecv. split.
  - intros Hreply Hdecode. now rewrite Hreply, Hdecode.
  - intros Hreply Hnotif Hdecode. now rewrite Hreply, Hnotif, Hdecode.
Qed.

Lemma listen_iter_no_delivery (w : World) :
  transport_closed (transport w) = true \/ silent w ->
  exists w',
    listen_iter w = (Returned Continue, w') /\
    session w' = session w /\ cells w' = cells w /\
    receive_loops w' = receive_loops w.
Proof.
  intros Hdown.
  destruct (Transport_Receive_fails w Hdown) as (e & w1 & Hrecv & Hs & Hc & Hl).
  rewrite (listen_iter_receive_error w w1 e Hrecv).
  eexists. split; [reflexivity|]. now cbn.
Qed.

Lemma no_delivery_session (w w' : World) :
  session w' = session w ->
  transport_closed (transport w) = true \/ silent w ->
  transport_closed (transport w') = true \/ silent w'.
Proof. unfold silent, transport. now intros ->. Qed.

(** The receive loop never leaves on a connection that delivers nothing,
    closed flag or not. *)
Lemma listen_loop_no_delivery (fuel : nat) (w : World) :
  transport_closed (transport w) = true \/ silent w ->
  fst (listen_loop fuel w) = None.
Proof.
  revert w; induction fuel as [|fuel IH]; intros w Hdown; [reflexivity|].
  cbn [listen_loop].
  destruct (listen_iter_no_delivery w Hdown) as (w' & -> & Hs & _).
  apply IH. now apply (no_delivery_session w).
Qed.

Lemma background_no_delivery (n : nat) (w : World) :
  transport_closed (transport w) = true \/ silent w ->
  exists w',
    background n w = (Returned tt, w') /\
    session w' = session w /\ cells w' = cells w /\
    receive_loops w' = receive_loops w.
Proof.
  revert w; induction n as [|n IH]; intros w Hdown; cbn [background].
  - now exists w.
  - destruct (receive_loops w) eqn:Hloops; [now exists w|].
    destruct (listen_iter_no_delivery w Hdown) as (w1 & -> & Hs & Hc & Hl).
    destruct (IH w1 (no_delivery_session w w1 Hs Hdown)) as (w2 & -> & Hs2 & Hc2 & Hl2).
    exists w2. repeat split; congruence.
Qed.

Lemma await_reply_no_delivery (fuel : nat) (sched : Schedule) (k c : nat) (w : World) :
  transport_closed (transport w) = true \/ silent w ->
  cell_received c w = false ->
  fst (await_reply fuel sched k c w) = None.
Proof.
  revert k w; induction fuel as [|fuel IH]; intros k w Hdown Hcell;
    cbn [await_reply]; rewrite Hcell; [reflexivity|].
  destruct (background_no_delivery (sched k) (emit ActSleep w))
    as (w1 & -> & Hs & Hc & Hl); [exact Hdown|].
  apply IH.
  - now apply (no_delivery_session (emit ActSleep w)).
  - unfold cell_received in *. now rewrite Hc.
Qed.

(** What the polling loop returns is the reply its callback stored. *)
Lemma await_reply_returns (fuel : nat) (sched : Schedule) (k c : nat) (w w' : World)
    (rpc : option RPCReply) (err : option error) :
  await_reply fuel sched k c w = (Some (Returned (rpc, err)), w') ->
  rpc = Some (cell_reply c w') /\ err = None /\ cell_received c w' = true.
Proof.
  revert k w; induction fuel as [|fuel IH]; intros k w; cbn [await_reply];
    (destruct (cell_received c w) eqn:Hcell;
     [intros Heq; inversion Heq; subst; auto|]); [discriminate|].
  destruct (background (sched k) (emit ActSleep w)) as [[u|m] w1].
  - apply IH.
  - discriminate.
Qed.

(** C2 (the code at the failing input). After Close the closed flag is set
    and the transport's Receive fails; the pass through the loop body then
    ends in [continue], so the receive loop is still running after any
    number of passes. *)
Theorem listen_loop_survives_Close (w : World) (fuel : nat) :
  let w' := snd (Close w) in
  IsClosed (session w') = true /\
  (exists e w1, Transport_Receive w' = (inr e, w1)) /\
  fst (listen_iter w') = Returned Continue /\
  fst (listen_loop fuel w') = None.
Proof.
  cbv zeta.
  assert (Hdown : transport_closed (transport (snd (Close w))) = true
                  \/ silent (snd (Close w))) by (left; reflexivity).
  split; [reflexivity|]. split; [|split].
  - destruct (Transport_Receive_fails _ Hdown) as (e & w1 & Hrecv & _).
    now exists e, w1.
  - destruct (listen_iter_no_delivery _ Hdown) as (w1 & -> & _). reflexivity.
  - now apply listen_loop_no_delivery.
Qed.

(** After a send that succeeded, on a connection that delivers nothing,
    SyncRPC is still polling when the fuel is used up, whatever the fuel. *)
Lemma SyncRPC_no_delivery (fuel : nat) (sched : Schedule) (operation : RPCMethod)
    (w : World) (request : string) :
  marshall operation = inl request ->
  default None (head (send_answers (transport w))) = None ->
  transport_closed (transport w) = true \/ silent w ->
  fst (SyncRPC fuel sched operation w) = None.
Proof.
  intros Hreq Hsend Hdown. unfold SyncRPC. rewrite Hreq.
  unfold Transport_Send.
  cbn [transport println Register emit with_session with_cells session
       set_Listener set_Transport Session_Transport] in *.
  unfold silent, transport in Hsend, Hdown. rewrite Hsend.
  apply await_reply_no_delivery.
  - exact Hdown.
  - unfold cell_received, Register, println.
    cbn [emit with_session with_cells cells].
    now rewrite list_lookup_middle.
Qed.

End NoDelivery.

(** * Further properties of the session code *)

Lemma receives_app (tr1 tr2 : list Action) :
  receives (tr1 ++ tr2) = (receives tr1 ++ receives tr2)%list.
Proof.
  induction tr1 as [|a tr1 IH]; [reflexivity|].
  destruct a; simpl; rewrite ?IH; reflexivity.
Qed.

Lemma invocations_app (tr1 tr2 : list Action) :
  invocations (tr1 ++ tr2) = (invocations tr1 ++ invocations tr2)%list.
Proof.
  induction tr1 as [|a tr1 IH]; [reflexivity|].
  destruct a; simpl; rewrite ?IH; reflexivity.
Qed.

Lemma Contains_refl (s : string) : strings.Contains s s = true.
Proof.
  apply Contains_spec. exists "", "".
  change ("" +:+ s +:+ "") with (s +:+ "").
  induction s as [|a s IH]; [reflexivity|].
  change (String a s +:+ "") with (String a (s +:+ "")). now f_equal.
Qed.

(** ** Construction and handshake *)

Section HandshakeMore.
Context `{Catalog}.

(** NewSession leaves a clean session: open, no subscription, an empty
    dispatcher, no receive loop running.  On the transport it has called
    Receive once and nothing else: nothing was sent, and the framing and the
    answers to coming sends are as they were. *)
Theorem NewSession_starts_clean (t : Transport) :
  let w := NewSession t in
  IsClosed (session w) = false /\
  IsNotificationStreamCreated (session w) = false /\
  listener w = ∅ /\
  cells w = [] /\
  receive_loops w = 0 /\
  trace w = [ActReceive (fst (Transport_Receive (new_Session t)))] /\
  version (transport w) = version t /\
  send_answers (transport w) = send_answers t /\
  transport_closed (transport w) = transport_closed t.
Proof.
  cbv zeta. unfold NewSession, ReceiveHello, Transport_Receive.
  cbn [new_Session with_session session set_IsClosed transport Session_Transport
       transport_closed].
  destruct (transport_closed t) eqn:Hclosed.
  - now cbn.
  - destruct (default (inr "EOF") (head (receive_answers t))) as [val|err].
    + destruct (xml_Unmarshal_Hello val) as [hello err]. now cbn.
    + now cbn.
Qed.

(** ReceiveHello makes one Receive on the transport and returns what came
    of it: the payload decoded as a Hello, with the decoder's error, or the
    zero Hello with the error of the receive.  It stores nothing of it: the
    session id and the capabilities of the session, its dispatcher and its
    subscription flag are as before, and nothing is sent. *)
Theorem ReceiveHello_stores_nothing (w : World) :
  let w' := snd (ReceiveHello w) in
  let answer := fst (Transport_Receive (with_session (set_IsClosed false) w)) in
  fst (ReceiveHello w) =
    match answer with
    | inl val => xml_Unmarshal_Hello val
    | inr err => (zeroHello, Some err)
    end /\
  receives (trace w') = (receives (trace w) ++ [answer])%list /\
  SessionID (session w') = SessionID (session w) /\
  Capabilities (session w') = Capabilities (session w) /\
  listener w' = listener w /\
  IsNotificationStreamCreated (session w') = IsNotificationStreamCreated (session w) /\
  sends (trace w') = sends (trace w).
Proof.
  cbv zeta. unfold ReceiveHello, Transport_Receive.
  cbn [with_session session set_IsClosed transport Session_Transport transport_closed].
  destruct (transport_closed (Session_Transport (session w))).
  - cbn. rewrite sends_app, receives_app, app_nil_r. now repeat split.
  - destruct (default (inr "EOF") (head (receive_answers (Session_Transport (session w)))))
      as [val|err]; cbn; rewrite sends_app, receives_app, app_nil_r;
      now repeat split.
Qed.

(** SendHello returns a marshalling error with nothing done.  Once the
    Hello is marshalled it returns the answer of the send, and whatever
    that answer is, also an error, it has by then set the framing from the
    peer's capabilities and started one more receive loop; the session id,
    the capabilities, the closed flag and the dispatcher are as before. *)
Theorem SendHello_outcomes (hello : Hello) (w : World) :
  (forall e, xml_Marshal_Hello hello = inr e -> SendHello hello w = (Some e, w)) /\
  (forall val, xml_Marshal_Hello hello = inl val ->
     let w' := snd (SendHello hello w) in
     fst (SendHello hello w) = default None (head (send_answers (transport w))) /\
     receive_loops w' = S (receive_loops w) /\
     version (transport w') =
       (if advertises_v11 (Capabilities (session w)) then "v1.1" else "v1.0") /\
     send_answers (transport w') = tail (send_answers (transport w)) /\
     SessionID (session w') = SessionID (session w) /\
     Capabilities (session w') = Capabilities (session w) /\
     IsClosed (session w') = IsClosed (session w) /\
     listener w' = listener w).
Proof.
  split.
  - intros e He. unfold SendHello. now rewrite He.
  - intros val Hval. cbv zeta. unfold SendHello. rewrite Hval.
    cbn [Transport_Send fst snd]. rewrite select_version_exists.
    cbn [Capabilities session with_session set_Transport emit Transport_SetVersion
         transport Session_Transport].
    now destruct (advertises_v11 (Capabilities (session w))).
Qed.

(** The session that SendHello leaves does not depend on the Hello it sent:
    the framing is chosen from the peer's capabilities alone, whatever the
    client advertised. *)
Theorem SendHello_ignores_local_hello (hello1 hello2 : Hello) (val1 val2 : string)
    (w : World) :
  xml_Marshal_Hello hello1 = inl val1 ->
  xml_Marshal_Hello hello2 = inl val2 ->
  session (snd (SendHello hello1 w)) = session (snd (SendHello hello2 w)) /\
  fst (SendHello hello1 w) = fst (SendHello hello2 w).
Proof.
  intros H1 H2. unfold SendHello. rewrite H1, H2.
  cbn [Transport_Send fst snd]. rewrite !select_version_exists.
  cbn [Capabilities session with_session set_Transport emit Transport_SetVersion
       transport Session_Transport].
  now destruct (advertises_v11 (Capabilities (session w))).
Qed.

(** A peer that advertises this library's default capabilities gets
    version 1.1 framing. *)
Theorem DefaultCapabilities_select_v11 (hello : Hello) (val : string) (w : World) :
  Capabilities (session w) = DefaultCapabilities ->
  xml_Marshal_Hello hello = inl val ->
  version (transport (snd (SendHello hello w))) = "v1.1".
Proof.
  intros Hcaps Hval. unfold SendHello. rewrite Hval.
  cbn [Transport_Send fst snd]. rewrite select_version_exists.
  cbn [Capabilities session with_session set_Transport emit Transport_SetVersion
       transport Session_Transport].
  rewrite Hcaps. unfold DefaultCapabilities, advertises_v11.
  cbn [existsb]. rewrite Contains_refl, orb_true_r. reflexivity.
Qed.

End HandshakeMore.

(** ** ExecRPC *)

Section ExecMore.
Context `{Catalog}.

(** ExecRPC goes past the dispatcher: no callback is registered, removed or
    run and nothing is dispatched, the flags of the session are as before.
    It calls Receive at most once, and returns either a reply and no error
    or an error and no reply. *)
Theorem ExecRPC_bypasses_dispatcher (operation : RPCMethod) (w : World) :
  let w' := snd (ExecRPC operation w) in
  listener w' = listener w /\
  cells w' = cells w /\
  receive_loops w' = receive_loops w /\
  dispatches (trace w') = dispatches (trace w) /\
  invocations (trace w') = invocations (trace w) /\
  IsClosed (session w') = IsClosed (session w) /\
  (exists answers, receives (trace w') = (receives (trace w) ++ answers)%list /\
                   length answers <= 1) /\
  ((exists reply, fst (ExecRPC operation w) = (Some reply, None)) \/
   (exists err, fst (ExecRPC operation w) = (None, Some err))).
Proof.
  cbv zeta. unfold ExecRPC, Transport_Send, Transport_Receive.
  destruct (xml_Marshal operation) as [request|err];
    [destruct (default None (head (send_answers (transport w)))) as [err|] eqn:Hsend;
     [|destruct (transport_closed (transport w)) eqn:Hopen;
       [|destruct (default (inr "EOF") (head (receive_answers (transport w))))
           as [rawXML|err] eqn:Hnext;
         [destruct (NewRPCReply rawXML) as [reply|err] eqn:Hdecode|]]]|];
    unfold transport in *;
    cbn [println emit with_session session set_Transport Session_Transport
         transport_closed receive_answers send_answers];
    rewrite ?Hsend; cbn [fst snd];
    cbn [println emit with_session session set_Transport Session_Transport
         transport_closed receive_answers send_answers];
    rewrite ?Hopen; cbn [fst snd];
    cbn [println emit with_session session set_Transport Session_Transport
         transport_closed receive_answers send_answers];
    rewrite ?Hnext, ?Hdecode; cbn [fst snd];
    cbn [listener cells receive_loops trace session emit with_session println
         set_Transport Listener IsClosed];
    rewrite ?dispatches_app, ?invocations_app, ?receives_app;
    cbn [dispatches invocations receives]; rewrite ?app_nil_r;
    repeat match goal with |- _ /\ _ => split end;
    try reflexivity; eauto;
    first [ exists []; split; [now rewrite app_nil_r | cbn; lia]
          | eexists; split; [reflexivity | cbn; lia] ].
Qed.

(** ExecRPC does not correlate: after a send that succeeded it returns the
    next payload of the connection decoded as a reply, whatever the message
    id of that reply. *)
Theorem ExecRPC_returns_next_payload (operation : RPCMethod) (w : World)
    (request rawXML : string) (reply : RPCReply) :
  xml_Marshal operation = inl request ->
  default None (head (send_answers (transport w))) = None ->
  transport_closed (transport w) = false ->
  head (receive_answers (transport w)) = Some (inl rawXML) ->
  NewRPCReply rawXML = inl reply ->
  fst (ExecRPC operation w) = (Some reply, None) /\
  sends (trace (snd (ExecRPC operation w))) =
    (sends (trace w) ++ [xml_Header +:+ request])%list /\
  receive_answers (transport (snd (ExecRPC operation w))) =
    tail (receive_answers (transport w)).
Proof.
  intros Hreq Hsend Hopen Hnext Hdecode. unfold ExecRPC. rewrite Hreq.
  unfold Transport_Send, transport in *.
  cbn [println emit with_session session set_Transport Session_Transport].
  rewrite Hsend. unfold Transport_Receive, transport.
  cbn [println emit with_session session set_Transport Session_Transport
       transport_closed receive_answers].
  rewrite Hopen, Hnext. cbn [default from_option id]. rewrite Hdecode. cbn.
  rewrite !sends_app. cbn. now rewrite !app_nil_r.
Qed.

End ExecMore.

(** ** The receive loop, open and closed *)

Section LoopMore.
Context `{Catalog}.

Lemma listen_iter_open (w : World) :
  IsClosed (session w) = false ->
  fst (listen_iter w) <> Returned Break /\
  IsClosed (session (snd (listen_iter w))) = false.
Proof.
  intros Hopen. split.
  - unfold listen_iter.
    pose proof (quiet_Transport_Receive w) as (Hc & _ & _).
    destruct (Transport_Receive w) as [[rawXML|err] w1]; cbn [snd] in *;
      [|discriminate].
    assert (Hcheck : forall v, IsClosed (session v) = false ->
                               fst (check_closed v) <> Returned Break).
    { intros v Hv. unfold check_closed. now rewrite Hv. }
    assert (Hafter : forall key kind v,
               fst (after_dispatch (Dispatch key kind v w1)) <> Returned Break).
    { intros key kind v.
      pose proof (quiet_Dispatch key kind v w1) as (Hd & _ & _).
      destruct (Dispatch key kind v w1) as [[u|m] w2]; cbn [after_dispatch snd] in *;
        [|discriminate].
      apply Hcheck. congruence. }
    destruct (strings.Contains rawXML "<rpc-reply").
    + destruct (NewRPCReply rawXML); [apply Hafter | discriminate].
    + destruct (strings.Contains rawXML "<notification").
      * destruct (NewNotification rawXML); [apply Hafter | discriminate].
      * apply Hcheck. cbn. congruence.
  - destruct (quiet_listen_iter w) as (Hc & _ & _). congruence.
Qed.

(** While the closed flag is not set the receive loop does not leave: after
    any number of passes it is still running, unless a callback panicked. *)
Theorem listen_loop_runs_while_open (fuel : nat) (w : World) :
  IsClosed (session w) = false ->
  fst (listen_loop fuel w) <> Some (Returned tt) /\
  IsClosed (session (snd (listen_loop fuel w))) = false.
Proof.
  revert w; induction fuel as [|fuel IH]; intros w Hopen; cbn [listen_loop].
  - split; [discriminate | exact Hopen].
  - destruct (listen_iter_open w Hopen) as (Hbreak & Hstill).
    destruct (listen_iter w) as [[[|]|m] w1]; cbn [fst snd] in *.
    + now apply IH.
    + contradiction.
    + split; [discriminate | exact Hstill].
Qed.

(** With the closed flag set, a pass that received a payload goes round
    again only when the payload carries a known marker and fails to decode;
    any other payload ends the loop (or a callback panics). *)
Theorem listen_iter_closed_payload (w w1 : World) (rawXML : string) :
  IsClosed (session w) = true ->
  Transport_Receive w = (inl rawXML, w1) ->
  fst (listen_iter w) = Returned Continue ->
  (strings.Contains rawXML "<rpc-reply" = true /\
   exists err, NewRPCReply rawXML = inr err) \/
  (strings.Contains rawXML "<rpc-reply" = false /\
   strings.Contains rawXML "<notification" = true /\
   exists err, NewNotification rawXML = inr err).
Proof.
  intros Hclosed Hrecv. unfold listen_iter. rewrite Hrecv.
  pose proof (quiet_Transport_Receive w) as (Hc & _ & _).
  rewrite Hrecv in Hc. cbn [snd] in Hc.
  assert (Hcheck : forall v, IsClosed (session v) = true ->
                             fst (check_closed v) <> Returned Continue).
  { intros v Hv. unfold check_closed. now rewrite Hv. }
  assert (Hafter : forall key kind v,
             fst (after_dispatch (Dispatch key kind v w1)) <> Returned Continue).
  { intros key kind v.
    pose proof (quiet_Dispatch key kind v w1) as (Hd & _ & _).
    destruct (Dispatch key kind v w1) as [[u|m] w2]; cbn [after_dispatch snd] in *;
      [|discriminate].
    apply Hcheck. congruence. }
  destruct (strings.Contains rawXML "<rpc-reply").
  - destruct (NewRPCReply rawXML) as [rpcReply|err].
    + intros Hcont. now apply Hafter in Hcont.
    + intros _. left. eauto.
  - destruct (strings.Contains rawXML "<notification").
    + destruct (NewNotification rawXML) as [notification|err].
      * intros Hcont. now apply Hafter in Hcont.
      * intros _. right. eauto.
    + intros Hcont. apply Hcheck in Hcont; [contradiction|]. cbn. congruence.
Qed.

End LoopMore.

(** ** Replies that arrive, and replies that never will *)

Section Delivery.
Context `{Catalog}.

(** Close fails no pending call: a SyncRPC that is polling when the session
    is closed is still polling after any number of sleeps. *)
Theorem SyncRPC_pending_after_Close (fuel : nat) (sched : Schedule) (k c : nat)
    (w : World) :
  cell_received c w = false ->
  fst (await_reply fuel sched k c (snd (Close w))) = None /\
  listener (snd (Close w)) = listener w.
Proof.
  intros Hcell. split; [|reflexivity].
  apply await_reply_no_delivery; [left; reflexivity | exact Hcell].
Qed.

(** One pass of the receive loop over a reply whose message id has a
    registration: the registered callback is run once, on the event built
    from that id, kind 0 and the reply. *)
Lemma listen_iter_delivers (w : World) (rawXML : string) (rpcReply : RPCReply)
    (reg : Registration) :
  transport_closed (transport w) = false ->
  head (receive_answers (transport w)) = Some (inl rawXML) ->
  strings.Contains rawXML "<rpc-reply" = true ->
  NewRPCReply rawXML = inl rpcReply ->
  listener w !! MessageID rpcReply = Some reg ->
  listen_iter w =
    after_dispatch
      (let w1 := snd (Transport_Receive w) in
       let w2 := emit (ActDispatch (MessageID rpcReply) 0 (VReply rpcReply)) w1 in
       match invoke (consumer reg)
                    (mkEvent (MessageID rpcReply) 0 (VReply rpcReply)) w2 with
       | (Panicked m, w3) => (Panicked m, w3)
       | (Returned _, w3) =>
           match persistence reg with
           | SingleShot => (Returned tt, Remove (MessageID rpcReply) w3)
           | Durable => (Returned tt, w3)
           end
       end).
Proof.
  intros Hopen Hnext Hmarker Hdecode Hreg.
  unfold listen_iter, Transport_Receive. unfold transport in *.
  rewrite Hopen, Hnext. cbn [default from_option id snd].
  rewrite Hmarker, Hdecode. unfold Dispatch.
  unfold listener in *.
  cbn [emit with_session session set_Transport Listener] in *.
  now rewrite Hreg.
Qed.

(** Enough fuel gives the result.  The request went out, a receive loop is
    running and gets one pass during the first sleep, and the next payload
    of the connection is a reply with the request's message id: SyncRPC
    returns that reply after one sleep. *)
Theorem SyncRPC_returns_matching_reply (fuel : nat) (sched : Schedule)
    (operation : RPCMethod) (w : World) (request rawXML : string)
    (rpcReply : RPCReply) :
  marshall operation = inl request ->
  default None (head (send_answers (transport w))) = None ->
  transport_closed (transport w) = false ->
  head (receive_answers (transport w)) = Some (inl rawXML) ->
  strings.Contains rawXML "<rpc-reply" = true ->
  NewRPCReply rawXML = inl rpcReply ->
  MessageID rpcReply = GetMessageID operation ->
  receive_loops w <> 0 ->
  sched 0 = 1 ->
  fst (SyncRPC (S fuel) sched operation w) = Some (Returned (Some rpcReply, None)).
Proof.
  intros Hreq Hsend Hopen Hnext Hmarker Hdecode Hid Hloops Hsched.
  unfold SyncRPC. rewrite Hreq. unfold Transport_Send.
  unfold transport in *.
  cbn [println Register emit with_session with_cells session set_Listener
       set_Transport Session_Transport] in *.
  rewrite Hsend.
  remember (length (cells w)) as c eqn:Hc.
  match goal with |- fst (await_reply _ _ _ _ ?v) = _ =>
    remember v as w4 eqn:Hw4
  end.
  assert (Hcells : cells w4 = (cells w ++ [mkSyncCell zeroRPCReply false])%list)
    by (now rewrite Hw4).
  assert (Hn : receive_loops (emit ActSleep w4) = receive_loops w)
    by (now rewrite Hw4).
  assert (Hopen' : transport_closed (transport (emit ActSleep w4)) = false)
    by (now rewrite Hw4).
  assert (Hnext' : head (receive_answers (transport (emit ActSleep w4)))
                   = Some (inl rawXML)) by (now rewrite Hw4).
  assert (Hreg : listener (emit ActSleep w4) !! MessageID rpcReply =
                 Some (mkRegistration (SyncRPCCallback c)
                                      (persistence_of (GetMessageID operation)))).
  { rewrite Hid, Hw4. unfold listener.
    cbn [emit with_session session set_Transport set_Listener Listener callbacks].
    apply lookup_insert_eq. }
  assert (Hzero : cell_received c w4 = false).
  { unfold cell_received. rewrite Hcells, Hc. now rewrite list_lookup_middle. }
  clear Hw4.
  cbn [await_reply]. rewrite Hzero, Hsched.
  cbn [background]. rewrite Hn.
  destruct (receive_loops w) as [|n]; [contradiction|].
  rewrite (listen_iter_delivers (emit ActSleep w4) rawXML rpcReply _
             Hopen' Hnext' Hmarker Hdecode Hreg).
  cbv zeta. cbn [consumer persistence invoke Event_RPCReply Event_Value].
  assert (Hdone : forall v : World,
             cells v = (<[c := mkSyncCell rpcReply true]> (cells w4)) ->
             cell_received c v = true /\ cell_reply c v = rpcReply).
  { intros v Hv. unfold cell_received, cell_reply. rewrite Hv, Hcells, Hc.
    rewrite list_lookup_insert_eq; [now split|].
    rewrite length_app. cbn. lia. }
  assert (Hret : forall v : World,
             cells v = (<[c := mkSyncCell rpcReply true]> (cells w4)) ->
             fst (await_reply fuel sched 1 c v) =
               Some (Returned (Some rpcReply, None))).
  { intros v Hv. destruct (Hdone v Hv) as (Hr & Hv').
    destruct fuel; cbn [await_reply]; rewrite Hr, Hv'; reflexivity. }
  destruct (persistence_of (GetMessageID operation));
    cbn [after_dispatch]; unfold check_closed;
    match goal with |- context [IsClosed ?s] => destruct (IsClosed s) end;
    cbn [background]; apply Hret; unfold Transport_Receive; rewrite Hopen';
    reflexivity.
Qed.

(** AsyncRPC, then a pass of the receive loop over the reply with the
    request's message id: the callback is run once, on that reply, and its
    registration, made under a request id, is gone afterwards. *)
Theorem AsyncRPC_then_reply (operation : RPCMethod) (callback : string) (w : World)
    (request rawXML : string) (rpcReply : RPCReply) :
  marshall operation = inl request ->
  transport_closed (transport w) = false ->
  head (receive_answers (transport w)) = Some (inl rawXML) ->
  strings.Contains rawXML "<rpc-reply" = true ->
  NewRPCReply rawXML = inl rpcReply ->
  MessageID rpcReply = GetMessageID operation ->
  GetMessageID operation <> NetconfNotificationStreamHandler ->
  let w' := snd (listen_iter (snd (AsyncRPC operation (UserCallback callback) w))) in
  invocations (trace w') =
    (invocations (trace w) ++
     [(UserCallback callback,
       mkEvent (GetMessageID operation) 0 (VReply rpcReply))])%list /\
  listener w' !! GetMessageID operation = None /\
  listener w' = delete (GetMessageID operation) (listener w).
Proof.
  intros Hreq Hopen Hnext Hmarker Hdecode Hid Hkey. cbv zeta.
  unfold AsyncRPC. rewrite Hreq. unfold Transport_Send.
  unfold transport in *.
  cbn [println Register emit with_session session set_Listener set_Transport
       Session_Transport].
  match goal with
  | |- context [snd (listen_iter (snd (match ?a with
                                       | Some err => (Some err, ?v)
                                       | None => (None, ?v) end)))] =>
      replace (snd (match a with Some err => (Some err, v) | None => (None, v) end))
        with v by (now destruct a); set (w3 := v)
  end.
  assert (Hreg : listener w3 !! MessageID rpcReply =
                 Some (mkRegistration (UserCallback callback) SingleShot)).
  { rewrite Hid. subst w3. unfold listener, println, Register.
    cbn [emit with_session session set_Transport set_Listener Listener callbacks].
    rewrite lookup_insert_eq. unfold persistence_of.
    destruct (String.eqb_spec (GetMessageID operation) NetconfNotificationStreamHandler);
      [contradiction | reflexivity]. }
  rewrite (listen_iter_delivers w3 rawXML rpcReply _ Hopen Hnext Hmarker Hdecode Hreg).
  cbv zeta. cbn [consumer persistence invoke after_dispatch].
  subst w3.
  unfold check_closed, Remove, Transport_Receive, listener, transport, println, Register.
  cbn [session emit with_session set_Transport set_Listener Session_Transport
       transport_closed IsClosed Listener callbacks].
  rewrite Hopen.
  cbn [snd session emit with_session set_Transport set_Listener Session_Transport
       transport_closed IsClosed Listener callbacks].
  destruct (IsClosed (session w));
    cbn [snd session emit with_session set_Transport set_Listener Session_Transport
         Listener callbacks trace];
    rewrite !invocations_app; cbn [invocations]; rewrite !app_nil_r, Hid;
    (split; [reflexivity|]); rewrite delete_insert_eq;
    (split; [now rewrite lookup_delete_eq | reflexivity]).
Qed.

(** Sleeps during which no receive loop gets to run change nothing but the
    trace, and the polling goes on. *)
Lemma await_reply_idle (n fuel : nat) (sched : Schedule) (k c : nat) (w : World) :
  (forall j, j < n -> sched (k + j) = 0) ->
  cell_received c w = false ->
  exists w',
    await_reply (n + fuel) sched k c w = await_reply fuel sched (k + n) c w' /\
    session w' = session w /\ cells w' = cells w /\
    receive_loops w' = receive_loops w.
Proof.
  revert k w; induction n as [|n IH]; intros k w Hidle Hcell.
  - exists w. now rewrite Nat.add_0_r.
  - assert (Hk : sched k = 0)
      by (rewrite <- (Nat.add_0_r k); apply Hidle; lia).
    cbn [Nat.add await_reply]. rewrite Hcell, Hk.
    cbn [background].
    destruct (IH (S k) (emit ActSleep w)) as (w' & Heq & Hs & Hc & Hl).
    + intros j Hj. replace (S k + j) with (k + S j) by lia. apply Hidle. lia.
    + exact Hcell.
    + exists w'. rewrite Heq. replace (S k + n) with (k + S n) by lia.
      now repeat split.
Qed.

Lemma await_reply_idle_none (fuel : nat) (sched : Schedule) (k c : nat) (w : World) :
  (forall j, j < fuel -> sched (k + j) = 0) ->
  cell_received c w = false ->
  fst (await_reply fuel sched k c w) = None.
Proof.
  revert k w; induction fuel as [|fuel IH]; intros k w Hidle Hcell;
    cbn [await_reply]; rewrite Hcell; [reflexivity|].
  assert (Hk : sched k = 0)
    by (rewrite <- (Nat.add_0_r k); apply Hidle; lia).
  rewrite Hk. cbn [background]. apply IH; [|exact Hcell].
  intros j Hj. replace (S k + j) with (k + S j) by lia. apply Hidle. lia.
Qed.

(** The sleep during which the reply comes in: the receive loop hands it to
    the callback of the call, and the polling ends with that reply. *)
Lemma await_reply_delivers (fuel : nat) (sched : Schedule) (k c : nat) (w : World)
    (rawXML : string) (rpcReply : RPCReply) (p : Persistence) :
  cell_received c w = false ->
  c < length (cells w) ->
  listener w !! MessageID rpcReply = Some (mkRegistration (SyncRPCCallback c) p) ->
  transport_closed (transport w) = false ->
  head (receive_answers (transport w)) = Some (inl rawXML) ->
  strings.Contains rawXML "<rpc-reply" = true ->
  NewRPCReply rawXML = inl rpcReply ->
  receive_loops w <> 0 ->
  sched k = 1 ->
  fst (await_reply (S fuel) sched k c w) = Some (Returned (Some rpcReply, None)).
Proof.
  intros Hcell Hc Hreg Hopen Hnext Hmarker Hdecode Hloops Hsched.
  cbn [await_reply]. rewrite Hcell, Hsched. cbn [background].
  change (receive_loops (emit ActSleep w)) with (receive_loops w).
  destruct (receive_loops w) as [|n]; [contradiction|].
  rewrite (listen_iter_delivers (emit ActSleep w) rawXML rpcReply _
             Hopen Hnext Hmarker Hdecode Hreg).
  cbv zeta. cbn [consumer persistence invoke Event_RPCReply Event_Value].
  assert (Hret : forall v : World,
             cells v = (<[c := mkSyncCell rpcReply true]> (cells w)) ->
             fst (await_reply fuel sched (S k) c v) =
               Some (Returned (Some rpcReply, None))).
  { intros v Hv.
    assert (Hr : cell_received c v = true /\ cell_reply c v = rpcReply).
    { unfold cell_received, cell_reply. rewrite Hv.
      now rewrite list_lookup_insert_eq. }
    destruct Hr as (Hr & Hv').
    destruct fuel; cbn [await_reply]; rewrite Hr, Hv'; reflexivity. }
  destruct p; cbn [after_dispatch]; unfold check_closed;
    match goal with |- context [IsClosed ?s] => destruct (IsClosed s) end;
    cbn [background]; apply Hret; unfold Transport_Receive;
    change (transport (emit ActSleep w)) with (transport w); rewrite Hopen;
    reflexivity.
Qed.

(** C4 (as amended). SyncRPC takes no duration and its wait has no bound.
    After a send that succeeded, on a connection that delivers nothing, it
    is still polling after any number of sleeps, under any schedule.  It
    polls until its callback has stored the matching reply and then returns
    that reply: when the reply with the request's message id is handed over
    by the receive loop during the sleep number [n], SyncRPC is still
    polling with fuel for [n] sleeps and returns that reply with any more.
    When it returns a reply, that is the reply its callback stored; the
    only errors it returns are the marshalling error and the send error. *)
Theorem SyncRPC_waits_without_bound (fuel : nat) (sched : Schedule)
    (operation : RPCMethod) (w : World) :
  (forall request,
      marshall operation = inl request ->
      default None (head (send_answers (transport w))) = None ->
      transport_closed (transport w) = true \/ silent w ->
      fst (SyncRPC fuel sched operation w) = None) /\
  (forall n request rawXML rpcReply,
      marshall operation = inl request ->
      default None (head (send_answers (transport w))) = None ->
      transport_closed (transport w) = false ->
      head (receive_answers (transport w)) = Some (inl rawXML) ->
      strings.Contains rawXML "<rpc-reply" = true ->
      NewRPCReply rawXML = inl rpcReply ->
      MessageID rpcReply = GetMessageID operation ->
      receive_loops w <> 0 ->
      (forall k, k < n -> sched k = 0) ->
      sched n = 1 ->
      fst (SyncRPC fuel sched operation w) =
        if Nat.leb fuel n then None else Some (Returned (Some rpcReply, None))) /\
  (forall rpc err w',
      SyncRPC fuel sched operation w = (Some (Returned (Some rpc, err)), w') ->
      err = None /\
      cell_received (length (cells w)) w' = true /\
      cell_reply (length (cells w)) w' = rpc) /\
  (forall rpc e w',
      SyncRPC fuel sched operation w = (Some (Returned (rpc, Some e)), w') ->
      rpc = None /\
      (marshall operation = inr e \/
       head (send_answers (transport w)) = Some (Some e))).
Proof.
  split; [|split; [|split]].
  - intros request. apply SyncRPC_no_delivery.
  - intros n request rawXML rpcReply Hreq Hsend Hopen Hnext Hmarker Hdecode Hid
           Hloops Hidle Hsched.
    unfold SyncRPC. rewrite Hreq. unfold Transport_Send.
    unfold transport in *.
    cbn [println Register emit with_session with_cells session set_Listener
         set_Transport Session_Transport] in *.
    rewrite Hsend.
    remember (length (cells w)) as c eqn:Hc.
    match goal with |- fst (await_reply _ _ _ _ ?v) = _ =>
      remember v as w4 eqn:Hw4
    end.
    assert (Hcells : cells w4 = (cells w ++ [mkSyncCell zeroRPCReply false])%list)
      by (now rewrite Hw4).
    assert (Hn : receive_loops w4 = receive_loops w) by (now rewrite Hw4).
    assert (Hopen' : transport_closed (transport w4) = false) by (now rewrite Hw4).
    assert (Hnext' : head (receive_answers (transport w4)) = Some (inl rawXML))
      by (now rewrite Hw4).
    assert (Hreg : listener w4 !! MessageID rpcReply =
                   Some (mkRegistration (SyncRPCCallback c)
                                        (persistence_of (GetMessageID operation)))).
    { rewrite Hid, Hw4. unfold listener.
      cbn [emit with_session session set_Transport set_Listener Listener callbacks].
      apply lookup_insert_eq. }
    assert (Hzero : cell_received c w4 = false).
    { unfold cell_received. rewrite Hcells, Hc. now rewrite list_lookup_middle. }
    assert (Hlen : c < length (cells w4)).
    { rewrite Hcells, length_app, Hc. cbn. lia. }
    clear Hw4.
    destruct (Nat.leb_spec fuel n) as [Hle|Hlt].
    + apply await_reply_idle_none; [|exact Hzero].
      intros j Hj. apply Hidle. lia.
    + replace fuel with (n + S (fuel - S n)) by lia.
      destruct (await_reply_idle n (S (fuel - S n)) sched 0 c w4)
        as (w5 & -> & Hs5 & Hc5 & Hl5); [intros j Hj; apply Hidle; lia | exact Hzero|].
      apply (await_reply_delivers _ sched (0 + n) c w5 rawXML rpcReply
               (persistence_of (GetMessageID operation))).
      * unfold cell_received in *. now rewrite Hc5.
      * now rewrite Hc5.
      * unfold listener in *. now rewrite Hs5.
      * unfold transport in *. now rewrite Hs5.
      * unfold transport in *. now rewrite Hs5.
      * exact Hmarker.
      * exact Hdecode.
      * now rewrite Hl5, Hn.
      * exact Hsched.
  - intros rpc err w'. unfold SyncRPC.
    destruct (marshall operation) as [request|e]; [|discriminate].
    match goal with |- context [Transport_Send ?d ?v] =>
      destruct (Transport_Send d v) as [[e|] w1]
    end; [discriminate|].
    intros Hawait. apply await_reply_returns in Hawait as (Hrpc & Herr & Hcell).
    inversion Hrpc. auto.
  - intros rpc e w' Hsync. split; [now apply (SyncRPC_error_nil_reply _ _ _ _ _ _ _ Hsync)|].
    revert Hsync. unfold SyncRPC.
    destruct (marshall operation) as [request|err];
      [|intros Heq; inversion Heq; subst; now left].
    unfold Transport_Send, transport.
    cbn [println Register emit with_session with_cells session
         set_Listener set_Transport Session_Transport].
    destruct (send_answers (Session_Transport (session w))) as [|[err|] answers];
      cbn [head tail default].
    + intros Hawait. now apply await_reply_returns in Hawait as (_ & Herr & _).
    + intros Heq; inversion Heq; subst. now right.
    + intros Hawait. now apply await_reply_returns in Hawait as (_ & Herr & _).
Qed.

End Delivery.

(** ** The subscription flag *)

Section StreamsMore.
Context `{Catalog}.

(** A CreateNotificationStream that returned no error has set the
    subscription flag and left the callback registered under the handler
    key as a durable entry; from then on every further call returns the
    conflict error and changes nothing. *)
Theorem CreateNotificationStream_success_then_conflict (fuel : nat) (sched : Schedule)
    (stopTime startTime stream : string) (callback : Callback) (w w' : World) :
  GetMessageID (NewCreateSubscription stopTime startTime stream)
    <> NetconfNotificationStreamHandler ->
  CreateNotificationStream fuel sched stopTime startTime stream callback w =
    (Some (Returned None), w') ->
  IsNotificationStreamCreated (session w) = false /\
  IsNotificationStreamCreated (session w') = true /\
  listener w' !! NetconfNotificationStreamHandler =
    Some (mkRegistration callback Durable) /\
  forall fuel' sched' stopTime' startTime' stream' callback',
    CreateNotificationStream fuel' sched' stopTime' startTime' stream' callback' w' =
      (Some (Returned (Some subscription_conflict)), w').
Proof.
  intros Hid. unfold CreateNotificationStream at 1.
  destruct (IsNotificationStreamCreated (session w)) eqn:Hflag; [discriminate|].
  pose proof (durable_SyncRPC NetconfNotificationStreamHandler callback fuel sched
                (NewCreateSubscription stopTime startTime stream)
                (Register NetconfNotificationStreamHandler callback w) Hid
                (durable_Register_handler callback w)) as Hd.
  destruct (SyncRPC fuel sched (NewCreateSubscription stopTime startTime stream)
              (Register NetconfNotificationStreamHandler callback w))
    as [[[[rpc err]|m]|] w1]; cbn [snd] in Hd; [|discriminate..].
  destruct err as [e|]; destruct rpc as [r|]; cbn [deref]; try discriminate.
  destruct (negb (length (Errors r) =? 0)%nat); [discriminate|].
  intros Heq. inversion Heq; subst. split; [reflexivity|]. split; [reflexivity|].
  split; [exact Hd|].
  intros. reflexivity.
Qed.

(** No operation of the session clears the subscription flag, and none but
    CreateNotificationStream changes it: once a stream was subscribed the
    session refuses every further subscription, also after the handler was
    removed from the dispatcher. *)
Theorem stream_flag_never_cleared (op : Op) (w : World) :
  (IsNotificationStreamCreated (session w) = true ->
   IsNotificationStreamCreated (session (run op w)) = true) /\
  match op with
  | OpCreateNotificationStream _ _ _ _ _ _ => True
  | _ => IsNotificationStreamCreated (session (run op w))
         = IsNotificationStreamCreated (session w)
  end /\
  IsNotificationStreamCreated
    (session (Remove NetconfNotificationStreamHandler w))
    = IsNotificationStreamCreated (session w).
Proof.
  assert (Hkeep : match op with
                  | OpCreateNotificationStream _ _ _ _ _ _ => True
                  | _ => IsNotificationStreamCreated (session (run op w))
                         = IsNotificationStreamCreated (session w)
                  end).
  { destruct op as [|hello| |operation|operation callback|fuel sched operation
                   |fuel sched stopTime startTime stream callback|]; [..|exact I|].
    - cbn [run]. unfold ReceiveHello.
      pose proof (quiet_Transport_Receive (with_session (set_IsClosed false) w))
        as (_ & Hs & _).
      now destruct (Transport_Receive (with_session (set_IsClosed false) w))
        as [[val|err] w1].
    - now destruct (sending_SendHello hello w) as (_ & Hs & _).
    - cbn [run]. unfold Close.
      now destruct (quiet_Transport_Close (with_session (set_IsClosed true) w))
        as (_ & Hs & _).
    - now destruct (sending_ExecRPC operation w) as (_ & Hs & _).
    - now destruct (sending_AsyncRPC operation callback w) as (_ & Hs & _).
    - now destruct (sending_SyncRPC fuel sched operation w) as (_ & Hs & _).
    - now destruct (quiet_listen_iter w) as (_ & Hs & _). }
  split; [|split; [exact Hkeep | reflexivity]].
  intros Hset.
  destruct op as [|hello| |operation|operation callback|fuel sched operation
                 |fuel sched stopTime startTime stream callback|];
    try (rewrite Hkeep; exact Hset).
  cbn [run]. unfold CreateNotificationStream. now rewrite Hset.
Qed.

End StreamsMore.

(** ** Synchronous calls that fail before the wait *)

Section SyncMore.
Context `{Catalog}.

(** SyncRPC returns a marshalling error with nothing done.  When the send
    fails it returns the send error and no reply, without waiting; its
    callback, registered before the send under the message id, stays in the
    dispatcher. *)
Theorem SyncRPC_send_failure (fuel : nat) (sched : Schedule)
    (operation : RPCMethod) (w : World) :
  (forall e, marshall operation = inr e ->
     SyncRPC fuel sched operation w = (Some (Returned (None, Some e)), w)) /\
  (forall request e,
     marshall operation = inl request ->
     head (send_answers (transport w)) = Some (Some e) ->
     let w' := snd (SyncRPC fuel sched operation w) in
     fst (SyncRPC fuel sched operation w) = Some (Returned (None, Some e)) /\
     listener w' !! GetMessageID operation =
       Some (mkRegistration (SyncRPCCallback (length (cells w)))
                            (persistence_of (GetMessageID operation))) /\
     cells w' = (cells w ++ [mkSyncCell zeroRPCReply false])%list /\
     trace w' = (trace w ++
       [ActRegister (GetMessageID operation) (SyncRPCCallback (length (cells w)));
        ActPrint (newline +:+ newline +:+ "Sending RPC");
        ActSend (version (transport w)) request (Some e)])%list).
Proof.
  split.
  - intros e He. unfold SyncRPC. now rewrite He.
  - intros request e Hreq Hsend. cbv zeta. unfold SyncRPC. rewrite Hreq.
    unfold Transport_Send, transport, println, Register, listener in *.
    cbn [emit with_session with_cells session set_Listener set_Transport
         Session_Transport].
    rewrite Hsend. cbn [default from_option id fst snd].
    cbn [emit with_session with_cells session set_Listener set_Transport
         Session_Transport Listener callbacks cells trace].
    split; [reflexivity|]. split; [apply lookup_insert_eq|].
    split; [reflexivity|]. now rewrite <- !app_assoc.
Qed.

End SyncMore.

(** ** The default callbacks *)

(** The default reply callback first removes the registration under its
    event id, whatever event it was given.  It panics exactly when the
    event carries its id and holds no reply: the nil check prints and goes
    on to read the reply. *)
Theorem DefaultLogRpcReplyCallback_behaviour (eventId : string) (event : Event)
    (w : World) :
  let r := DefaultLogRpcReplyCallback eventId event w in
  listener (snd r) = delete eventId (listener w) /\
  (fst r = Panicked nil_dereference <->
   Event_RPCReply event = None /\ EventID event = eventId) /\
  (fst r = Returned tt <->
   is_Some (Event_RPCReply event) \/ EventID event <> eventId) /\
  sends (trace (snd r)) = sends (trace w).
Proof.
  cbv zeta. unfold DefaultLogRpcReplyCallback.
  destruct (String.eqb_spec (EventID event) eventId) as [Heq|Hne];
    destruct (Event_RPCReply event) as [reply|]; cbn [deref fst snd];
    unfold println, Remove, listener;
    cbn [emit with_session session set_Listener Listener callbacks trace];
    rewrite ?sends_app; cbn [sends]; rewrite ?app_nil_r;
    (split; [reflexivity|]); (split; [|split; [|reflexivity]]);
    split; try discriminate; try tauto; try (intros [? ?]; discriminate);
    try (intros _; left; eauto); try (intros _; right; exact Hne);
    try (intros [[? ?]|?]; [discriminate | contradiction]).
Qed.

(** The default notification callback: the same, with the notification in
    place of the reply. *)
Theorem DefaultLogNotificationCallback_behaviour (eventId : string) (event : Event)
    (w : World) :
  let r := DefaultLogNotificationCallback eventId event w in
  listener (snd r) = delete eventId (listener w) /\
  (fst r = Panicked nil_dereference <->
   Event_Notification event = None /\ EventID event = eventId) /\
  (fst r = Returned tt <->
   is_Some (Event_Notification event) \/ EventID event <> eventId) /\
  sends (trace (snd r)) = sends (trace w).
Proof.
  cbv zeta. unfold DefaultLogNotificationCallback.
  destruct (String.eqb_spec (EventID event) eventId) as [Heq|Hne];
    destruct (Event_Notification event) as [reply|]; cbn [deref fst snd];
    unfold println, Remove, listener;
    cbn [emit with_session session set_Listener Listener callbacks trace];
    rewrite ?sends_app; cbn [sends]; rewrite ?app_nil_r;
    (split; [reflexivity|]); (split; [|split; [|reflexivity]]);
    split; try discriminate; try tauto; try (intros [? ?]; discriminate);
    try (intros _; left; eauto); try (intros _; right; exact Hne);
    try (intros [[? ?]|?]; [discriminate | contradiction]).
Qed.

(** * The code on concrete sessions *)

Import lab.

(** ** Handshake *)



(** The peer advertises version 1.0 only: the session stays on 1.0. *)
Example SendHello_peer_v10_only :
  version (transport (snd (SendHello client_hello (fresh [v10] [] [])))) = "v1.0" /\
  sends (trace (snd (SendHello client_hello (fresh [v10] [] [])))) =
    [xml_Header +:+ "<hello><capabilities>" +:+ capability_elements [v10; v11]
     +:+ "</capabilities></hello>"].
Proof. split; vm_compute; reflexivity. Qed.

(** ** Construction *)

(** C5 (counterexample). The receive fails, or the payload is not a Hello,
    and NewSession still returns a session: the very session it builds from
    a well-formed Hello with session id 0 and no capability. *)
Lemma NewSession_swallows_failure :
  snd (fst (ReceiveHello (new_Session (wire [] [inr "connection reset by peer"]))))
    = Some "connection reset by peer" /\
  session (NewSession (wire [] [inr "connection reset by peer"]))
    = session (NewSession (wire [] [inl (server_hello "0" [])])) /\
  snd (fst (ReceiveHello (new_Session (wire [] [inl "<hello>"]))))
    = Some "XML syntax error: unexpected EOF" /\
  session (NewSession (wire [] [inl "<hello>"]))
    = session (NewSession (wire [] [inl (server_hello "0" [])])).
Proof. repeat split; vm_compute; reflexivity. Qed.

Lemma NewSession_discards_error_eof :
  fst (Transport_Receive (new_Session (wire [] [inr "EOF"]))) = inr "EOF" /\
  SessionID (session (NewSession (wire [] [inr "EOF"]))) = 0%Z /\
  Capabilities (session (NewSession (wire [] [inr "EOF"]))) = [].
Proof.
  assert (He : fst (Transport_Receive (new_Session (wire [] [inr "EOF"]))) = inr "EOF")
    by (vm_compute; reflexivity).
  split; [exact He|].
  destruct (NewSession_discards_error (H := catalog) (wire [] [inr "EOF"]))
    as (_ & _ & _ & Hfail).
  destruct (Hfail "EOF" He) as (_ & Hid & Hcaps). now split.
Defined.

(** ** The closed flag *)

(** C3 (counterexample). On a closed session ReceiveHello resets the flag,
    and AsyncRPC hands its request to the transport with the flag set. *)
Lemma closed_flag_reset_and_send :
  IsClosed (session (snd (Close (established [v10] [] [])))) = true /\
  IsClosed (session (run OpReceiveHello (snd (Close (established [v10] [] []))))) = false /\
  IsClosed (session (run (OpAsyncRPC get_config on_event)
                         (snd (Close (established [v10] [] []))))) = true /\
  sends (trace (run (OpAsyncRPC get_config on_event)
                    (snd (Close (established [v10] [] []))))) =
    (sends (trace (snd (Close (established [v10] [] []))))
     ++ [xml_Header +:+ "<rpc message-id='101'><get-config/></rpc>"])%list.
Proof. repeat split; vm_compute; reflexivity. Qed.

(** ** The receive loop *)

(** A reply is dispatched under its message id with kind 0. *)
Lemma listen_iter_classifies_reply :
  Transport_Receive (established [v10] [] [inl (reply_ok "101")]) =
    (inl (reply_ok "101"),
     snd (Transport_Receive (established [v10] [] [inl (reply_ok "101")]))) /\
  dispatches (trace (snd (listen_iter (established [v10] [] [inl (reply_ok "101")]))))
    = [("101", EventReply)].
Proof.
  assert (Hr : Transport_Receive (established [v10] [] [inl (reply_ok "101")]) =
    (inl (reply_ok "101"),
     snd (Transport_Receive (established [v10] [] [inl (reply_ok "101")]))))
    by (vm_compute; reflexivity).
  split; [exact Hr|].
  destruct (listen_iter_classifies (H := catalog) _ _ _ Hr) as (Hreply & _ & _).
  assert (Hm : strings.Contains (reply_ok "101") "<rpc-reply" = true)
    by (vm_compute; reflexivity).
  assert (Hd : NewRPCReply (reply_ok "101") =
               inl (mkRPCReply "101" [] (reply_ok "101")))
    by (vm_compute; reflexivity).
  rewrite (Hreply Hm _ Hd). vm_compute. reflexivity.
Defined.

(** A notification goes to the handler key with kind 1; anything else is
    dropped, and so is a reply that does not decode. *)
Example listen_iter_notification_and_unknown :
  dispatches (trace (snd (listen_iter
    (established [v10] [] [inl "<notification><eventTime/></notification>"]))))
    = [(handler, EventNotification)] /\
  dispatches (trace (snd (listen_iter (established [v10] [] [inl "<ping/>"])))) = [] /\
  fst (listen_iter (established [v10] [] [inl "<rpc-reply message-id='101'>"]))
    = Returned Continue /\
  dispatches (trace (snd (listen_iter
    (established [v10] [] [inl "<rpc-reply message-id='101'>"])))) = [].
Proof. repeat split; vm_compute; reflexivity. Qed.

(** After Close, on a concrete session: the flag is set, the pass ends in
    [continue], and the loop has not left after a hundred passes. *)
Example listen_loop_after_Close :
  IsClosed (session (snd (Close (established [v10] [] [])))) = true /\
  fst (listen_iter (snd (Close (established [v10] [] [])))) = Returned Continue /\
  fst (listen_loop 100 (snd (Close (established [v10] [] [])))) = None.
Proof. repeat split; vm_compute; reflexivity. Qed.

(** While the flag is set, a payload that was received does end the loop:
    the check sits on that path only. *)
Example listen_loop_leaves_after_payload :
  fst (listen_loop 1 (with_session (set_IsClosed true)
                        (established [v10] [] [inl "<ping/>"])))
    = Some (Returned tt).
Proof. vm_compute; reflexivity. Qed.

(** ** Synchronous calls *)

(** C4 (counterexample). The request went out and no reply ever comes:
    SyncRPC is still polling after any number of sleeps; it never returns,
    with a timeout or otherwise. *)
Lemma SyncRPC_never_times_out :
  sends (trace (snd (SyncRPC 0 steady get_config (established [v10] [] [])))) =
    (sends (trace (established [v10] [] []))
     ++ [xml_Header +:+ "<rpc message-id='101'><get-config/></rpc>"])%list /\
  (forall fuel : nat,
      fst (SyncRPC fuel steady get_config (established [v10] [] [])) = None).
Proof.
  split; [vm_compute; reflexivity|].
  intros fuel.
  apply (SyncRPC_no_delivery (H := catalog) fuel steady get_config _
           (xml_Header +:+ "<rpc message-id='101'><get-config/></rpc>"));
    [vm_compute; reflexivity | vm_compute; reflexivity | right; vm_compute; reflexivity].
Qed.

Lemma SyncRPC_waits_without_bound_silent :
  marshall get_config =
    inl (xml_Header +:+ "<rpc message-id='101'><get-config/></rpc>") /\
  silent (established [v10] [] []) /\
  fst (SyncRPC 1000 steady get_config (established [v10] [] [])) = None /\
  fst (SyncRPC 2 (late 2) get_config (established [v10] [] [inl (reply_ok "101")]))
    = None /\
  fst (SyncRPC 3 (late 2) get_config (established [v10] [] [inl (reply_ok "101")]))
    = Some (Returned (Some (mkRPCReply "101" [] (reply_ok "101")), None)).
Proof.
  assert (Hm : marshall get_config =
    inl (xml_Header +:+ "<rpc message-id='101'><get-config/></rpc>"))
    by (vm_compute; reflexivity).
  assert (Hs : silent (established [v10] [] [])) by (vm_compute; reflexivity).
  assert (Hidle : forall k, k < 2 -> late 2 k = 0).
  { intros k Hk. destruct k as [|[|k]]; [reflexivity | reflexivity | lia]. }
  assert (Hloops : receive_loops (established [v10] [] [inl (reply_ok "101")]) <> 0)
    by (vm_compute; discriminate).
  split; [exact Hm|]. split; [exact Hs|]. split; [|split].
  - destruct (SyncRPC_waits_without_bound (H := catalog) 1000 steady get_config
                (established [v10] [] [])) as (Hwait & _).
    apply (Hwait _ Hm); [vm_compute; reflexivity | right; exact Hs].
  - destruct (SyncRPC_waits_without_bound (H := catalog) 2 (late 2) get_config
                (established [v10] [] [inl (reply_ok "101")])) as (_ & Hlive & _).
    refine (Hlive 2 _ (reply_ok "101") (mkRPCReply "101" [] (reply_ok "101"))
              Hm _ _ _ _ _ _ Hloops Hidle _); vm_compute; reflexivity.
  - destruct (SyncRPC_waits_without_bound (H := catalog) 3 (late 2) get_config
                (established [v10] [] [inl (reply_ok "101")])) as (_ & Hlive & _).
    refine (Hlive 2 _ (reply_ok "101") (mkRPCReply "101" [] (reply_ok "101"))
              Hm _ _ _ _ _ _ Hloops Hidle _); vm_compute; reflexivity.
Defined.

(** With the reply on the connection and fuel for one sleep, SyncRPC returns
    that reply; the single-shot registration is gone afterwards. *)
Example SyncRPC_returns_reply :
  fst (SyncRPC 1 steady get_config (established [v10] [] [inl (reply_ok "101")]))
    = Some (Returned (Some (mkRPCReply "101" [] (reply_ok "101")), None)) /\
  listener (snd (SyncRPC 1 steady get_config
                   (established [v10] [] [inl (reply_ok "101")]))) !! "101" = None.
Proof. split; vm_compute; reflexivity. Qed.

(** ** Asynchronous calls *)

Lemma AsyncRPC_registers_before_send_broken_pipe :
  marshall get_config =
    inl (xml_Header +:+ "<rpc message-id='101'><get-config/></rpc>") /\
  fst (AsyncRPC get_config on_event (established [v10] [Some "broken pipe"] []))
    = Some "broken pipe" /\
  listener (snd (AsyncRPC get_config on_event
                   (established [v10] [Some "broken pipe"] []))) !! "101"
    = Some (mkRegistration on_event SingleShot) /\
  AsyncRPC unsupported on_event (established [v10] [] []) =
    (Some "xml: unsupported type: chan int", established [v10] [] []).
Proof.
  assert (Hm : marshall get_config =
    inl (xml_Header +:+ "<rpc message-id='101'><get-config/></rpc>"))
    by (vm_compute; reflexivity).
  destruct (AsyncRPC_registers_before_send (H := catalog) get_config on_event
              (established [v10] [Some "broken pipe"] [])) as (_ & Hsend).
  destruct (Hsend _ Hm) as (Herr & _ & _ & _ & Hreg).
  destruct (AsyncRPC_registers_before_send (H := catalog) unsupported on_event
              (established [v10] [] [])) as (Hfail & _).
  split; [exact Hm|]. split; [|split].
  - rewrite Herr. vm_compute. reflexivity.
  - apply Hreg. vm_compute. discriminate.
  - apply Hfail. vm_compute. reflexivity.
Defined.

(** ** Notification streams *)

(** A session with its one subscription in place. *)
Lemma CreateNotificationStream_conflict_second_call :
  IsNotificationStreamCreated
    (session (snd (CreateNotificationStream 1 steady "" "" "NETCONF" on_event
                     (established [v10] [] [inl (reply_ok "subscribe-1")])))) = true /\
  CreateNotificationStream 1 steady "" "" "NETCONF" (UserCallback "other")
    (snd (CreateNotificationStream 1 steady "" "" "NETCONF" on_event
            (established [v10] [] [inl (reply_ok "subscribe-1")]))) =
  (Some (Returned (Some subscription_conflict)),
   snd (CreateNotificationStream 1 steady "" "" "NETCONF" on_event
          (established [v10] [] [inl (reply_ok "subscribe-1")]))).
Proof.
  assert (Ha : IsNotificationStreamCreated
    (session (snd (CreateNotificationStream 1 steady "" "" "NETCONF" on_event
                     (established [v10] [] [inl (reply_ok "subscribe-1")])))) = true)
    by (vm_compute; reflexivity).
  split; [exact Ha|].
  exact (CreateNotificationStream_conflict (H := catalog) 1 steady "" "" "NETCONF"
           (UserCallback "other") _ Ha).
Defined.

Lemma CreateNotificationStream_nil_reply_panics_broken_pipe :
  IsNotificationStreamCreated
    (session (established [v10] [Some "broken pipe"] [])) = false /\
  fst (SyncRPC 1 steady (NewCreateSubscription "" "" "NETCONF")
         (Register NetconfNotificationStreamHandler on_event
            (established [v10] [Some "broken pipe"] [])))
    = Some (Returned (None, Some "broken pipe")) /\
  fst (CreateNotificationStream 1 steady "" "" "NETCONF" on_event
         (established [v10] [Some "broken pipe"] []))
    = Some (Panicked nil_dereference).
Proof.
  assert (Hf : IsNotificationStreamCreated
    (session (established [v10] [Some "broken pipe"] [])) = false)
    by (vm_compute; reflexivity).
  split; [exact Hf|]. split; [vm_compute; reflexivity|].
  rewrite (CreateNotificationStream_nil_reply_panics (H := catalog) 1 steady
             "" "" "NETCONF" on_event (established [v10] [Some "broken pipe"] [])
             (snd (SyncRPC 1 steady (NewCreateSubscription "" "" "NETCONF")
                     (Register NetconfNotificationStreamHandler on_event
                        (established [v10] [Some "broken pipe"] []))))
             "broken pipe" Hf); [reflexivity | vm_compute; reflexivity].
Defined.

(** C6 (counterexample). The reply carries an error: the call returns its
    descriptive error, and the callback is still registered under the
    handler key; the next notification is delivered to it. *)
Lemma CreateNotificationStream_leaves_registration :
  fst (CreateNotificationStream 1 steady "" "" "NETCONF" on_event
         (established [v10] []
            [inl (reply_error "subscribe-1" "unknown stream");
             inl "<notification><eventTime/></notification>"]))
    = Some (Returned (Some
        "fail to create notification stream with errors: [unknown stream]. Error: %!s(<nil>)")) /\
  listener (snd (CreateNotificationStream 1 steady "" "" "NETCONF" on_event
         (established [v10] []
            [inl (reply_error "subscribe-1" "unknown stream");
             inl "<notification><eventTime/></notification>"])))
    !! NetconfNotificationStreamHandler = Some (mkRegistration on_event Durable) /\
  In (ActInvoke on_event
        (mkEvent handler EventNotification
           (VNotification
              (mkNotification handler "<notification><eventTime/></notification>"))))
     (trace (snd (listen_iter
        (snd (CreateNotificationStream 1 steady "" "" "NETCONF" on_event
           (established [v10] []
              [inl (reply_error "subscribe-1" "unknown stream");
               inl "<notification><eventTime/></notification>"])))))).
Proof.
  split; [vm_compute; reflexivity|]. split; [vm_compute; reflexivity|].
  vm_compute. repeat (first [left; reflexivity | right]).
Qed.

Lemma CreateNotificationStream_reply_errors_unknown_stream :
  IsNotificationStreamCreated (session (established [v10] []
      [inl (reply_error "subscribe-1" "unknown stream")])) = false /\
  fst (CreateNotificationStream 1 steady "" "" "NETCONF" on_event
         (established [v10] [] [inl (reply_error "subscribe-1" "unknown stream")]))
    = Some (Returned (Some (subscription_failed ["unknown stream"] None))) /\
  listener (snd (SyncRPC 1 steady (NewCreateSubscription "" "" "NETCONF")
      (Register NetconfNotificationStreamHandler on_event
         (established [v10] [] [inl (reply_error "subscribe-1" "unknown stream")]))))
    !! NetconfNotificationStreamHandler = Some (mkRegistration on_event Durable).
Proof.
  assert (Hf : IsNotificationStreamCreated (session (established [v10] []
      [inl (reply_error "subscribe-1" "unknown stream")])) = false)
    by (vm_compute; reflexivity).
  destruct (CreateNotificationStream_reply_errors (H := catalog) 1 steady
              "" "" "NETCONF" on_event
              (established [v10] [] [inl (reply_error "subscribe-1" "unknown stream")])
              (snd (SyncRPC 1 steady (NewCreateSubscription "" "" "NETCONF")
                 (Register NetconfNotificationStreamHandler on_event
                    (established [v10] []
                       [inl (reply_error "subscribe-1" "unknown stream")]))))
              (mkRPCReply "subscribe-1" ["unknown stream"]
                          (reply_error "subscribe-1" "unknown stream"))
              Hf) as (Hret & Hreg & _).
  - vm_compute. discriminate.
  - vm_compute. reflexivity.
  - discriminate.
  - split; [exact Hf|]. split; [now rewrite Hret | exact Hreg].
Defined.

(** A reply that does not decode: the pass prints the failure and ends in
    [continue]. *)
Lemma listen_iter_decode_failure_truncated :
  Transport_Receive (established [v10] [] [inl "<rpc-reply message-id='101'>"]) =
    (inl "<rpc-reply message-id='101'>",
     snd (Transport_Receive (established [v10] [] [inl "<rpc-reply message-id='101'>"]))) /\
  fst (listen_iter (established [v10] [] [inl "<rpc-reply message-id='101'>"]))
    = Returned Continue.
Proof.
  assert (Hr : Transport_Receive
                 (established [v10] [] [inl "<rpc-reply message-id='101'>"]) =
    (inl "<rpc-reply message-id='101'>",
     snd (Transport_Receive (established [v10] [] [inl "<rpc-reply message-id='101'>"]))))
    by (vm_compute; reflexivity).
  split; [exact Hr|].
  destruct (listen_iter_decode_failure (H := catalog) _ _ _
              "XML syntax error: unexpected EOF" Hr) as (Hreply & _).
  rewrite Hreply; [reflexivity | vm_compute; reflexivity | vm_compute; reflexivity].
Defined.

(** ** Further runs on concrete sessions *)

Lemma SendHello_outcomes_broken_pipe :
  xml_Marshal_Hello client_hello =
    inl ("<hello><capabilities>" +:+ capability_elements [v10; v11]
         +:+ "</capabilities></hello>") /\
  fst (SendHello client_hello (fresh [v10; v11] [Some "broken pipe"] []))
    = Some "broken pipe" /\
  receive_loops (snd (SendHello client_hello (fresh [v10; v11] [Some "broken pipe"] [])))
    = 1 /\
  version (transport (snd (SendHello client_hello
                             (fresh [v10; v11] [Some "broken pipe"] [])))) = "v1.1".
Proof.
  assert (Hm : xml_Marshal_Hello client_hello =
    inl ("<hello><capabilities>" +:+ capability_elements [v10; v11]
         +:+ "</capabilities></hello>")) by (vm_compute; reflexivity).
  split; [exact Hm|].
  destruct (SendHello_outcomes (H := catalog) client_hello
              (fresh [v10; v11] [Some "broken pipe"] [])) as (_ & Hok).
  destruct (Hok _ Hm) as (Herr & Hloops & Hversion & _).
  rewrite Herr, Hloops, Hversion. repeat split; vm_compute; reflexivity.
Defined.

Lemma SendHello_ignores_local_hello_v10_client :
  xml_Marshal_Hello client_hello =
    inl ("<hello><capabilities>" +:+ capability_elements [v10; v11]
         +:+ "</capabilities></hello>") /\
  xml_Marshal_Hello (mkHello 0 [v10]) =
    inl ("<hello><capabilities>" +:+ capability_elements [v10]
         +:+ "</capabilities></hello>") /\
  session (snd (SendHello client_hello (fresh [v10; v11] [] []))) =
    session (snd (SendHello (mkHello 0 [v10]) (fresh [v10; v11] [] []))) /\
  version (transport (snd (SendHello (mkHello 0 [v10]) (fresh [v10; v11] [] []))))
    = "v1.1".
Proof.
  assert (H1 : xml_Marshal_Hello client_hello =
    inl ("<hello><capabilities>" +:+ capability_elements [v10; v11]
         +:+ "</capabilities></hello>")) by (vm_compute; reflexivity).
  assert (H2 : xml_Marshal_Hello (mkHello 0 [v10]) =
    inl ("<hello><capabilities>" +:+ capability_elements [v10]
         +:+ "</capabilities></hello>")) by (vm_compute; reflexivity).
  split; [exact H1|]. split; [exact H2|].
  destruct (SendHello_ignores_local_hello (H := catalog) client_hello (mkHello 0 [v10])
              _ _ (fresh [v10; v11] [] []) H1 H2) as (Hsession & _).
  split; [exact Hsession | vm_compute; reflexivity].
Defined.

Lemma DefaultCapabilities_select_v11_fresh :
  Capabilities (session (fresh [v10; v11] [] [])) = DefaultCapabilities /\
  version (transport (snd (SendHello client_hello (fresh [v10; v11] [] [])))) = "v1.1".
Proof.
  assert (Hcaps : Capabilities (session (fresh [v10; v11] [] [])) = DefaultCapabilities)
    by (vm_compute; reflexivity).
  assert (Hm : xml_Marshal_Hello client_hello =
    inl ("<hello><capabilities>" +:+ capability_elements [v10; v11]
         +:+ "</capabilities></hello>")) by (vm_compute; reflexivity).
  split; [exact Hcaps|].
  exact (DefaultCapabilities_select_v11 (H := catalog) client_hello _ _ Hcaps Hm).
Defined.

(** The reply that comes next carries another message id than the request;
    ExecRPC returns it all the same. *)
Lemma ExecRPC_returns_next_payload_other_id :
  GetMessageID get_config = "101" /\
  fst (ExecRPC get_config (fresh [v10] [] [inl (reply_ok "999")]))
    = (Some (mkRPCReply "999" [] (reply_ok "999")), None).
Proof.
  split; [reflexivity|].
  refine (proj1 (ExecRPC_returns_next_payload (H := catalog) get_config
              (fresh [v10] [] [inl (reply_ok "999")])
              "<rpc message-id='101'><get-config/></rpc>" (reply_ok "999")
              (mkRPCReply "999" [] (reply_ok "999")) _ _ _ _ _));
    vm_compute; reflexivity.
Defined.

Lemma listen_loop_runs_while_open_established :
  IsClosed (session (established [v10] [] [inl (reply_ok "101"); inl "<ping/>"])) = false /\
  fst (listen_loop 5 (established [v10] [] [inl (reply_ok "101"); inl "<ping/>"]))
    <> Some (Returned tt).
Proof.
  assert (Hopen : IsClosed (session (established [v10] []
                    [inl (reply_ok "101"); inl "<ping/>"])) = false)
    by (vm_compute; reflexivity).
  split; [exact Hopen|].
  exact (proj1 (listen_loop_runs_while_open (H := catalog) 5 _ Hopen)).
Defined.

Lemma listen_iter_closed_payload_truncated :
  IsClosed (session (with_session (set_IsClosed true)
     (established [v10] [] [inl "<rpc-reply message-id='101'>"]))) = true /\
  fst (listen_iter (with_session (set_IsClosed true)
     (established [v10] [] [inl "<rpc-reply message-id='101'>"]))) = Returned Continue /\
  exists err, NewRPCReply "<rpc-reply message-id='101'>" = inr err.
Proof.
  assert (Hclosed : IsClosed (session (with_session (set_IsClosed true)
     (established [v10] [] [inl "<rpc-reply message-id='101'>"]))) = true)
    by (vm_compute; reflexivity).
  assert (Hcont : fst (listen_iter (with_session (set_IsClosed true)
     (established [v10] [] [inl "<rpc-reply message-id='101'>"]))) = Returned Continue)
    by (vm_compute; reflexivity).
  split; [exact Hclosed|]. split; [exact Hcont|].
  destruct (listen_iter_closed_payload (H := catalog) _
              (snd (Transport_Receive (with_session (set_IsClosed true)
                 (established [v10] [] [inl "<rpc-reply message-id='101'>"]))))
              "<rpc-reply message-id='101'>" Hclosed)
    as [(_ & Herr)|(Hno & _)]; [vm_compute; reflexivity | exact Hcont | exact Herr |].
  vm_compute in Hno. discriminate Hno.
Defined.

Lemma SyncRPC_pending_after_Close_get_config :
  cell_received 0 (snd (SyncRPC 0 steady get_config (established [v10] [] []))) = false /\
  fst (await_reply 1000 steady 0 0
         (snd (Close (snd (SyncRPC 0 steady get_config (established [v10] [] []))))))
    = None.
Proof.
  assert (Hcell : cell_received 0
            (snd (SyncRPC 0 steady get_config (established [v10] [] []))) = false)
    by (vm_compute; reflexivity).
  split; [exact Hcell|].
  exact (proj1 (SyncRPC_pending_after_Close (H := catalog) 1000 steady 0 0 _ Hcell)).
Defined.

Lemma SyncRPC_returns_matching_reply_get_config :
  receive_loops (established [v10] [] [inl (reply_ok "101")]) <> 0 /\
  fst (SyncRPC 1 steady get_config (established [v10] [] [inl (reply_ok "101")]))
    = Some (Returned (Some (mkRPCReply "101" [] (reply_ok "101")), None)).
Proof.
  assert (Hloops : receive_loops (established [v10] [] [inl (reply_ok "101")]) <> 0)
    by (vm_compute; discriminate).
  split; [exact Hloops|].
  apply (SyncRPC_returns_matching_reply (H := catalog) 0 steady get_config
           (established [v10] [] [inl (reply_ok "101")])
           (xml_Header +:+ "<rpc message-id='101'><get-config/></rpc>")
           (reply_ok "101") (mkRPCReply "101" [] (reply_ok "101")));
    try (vm_compute; reflexivity).
  exact Hloops.
Defined.

Lemma AsyncRPC_then_reply_get_config :
  GetMessageID get_config <> NetconfNotificationStreamHandler /\
  invocations (trace (snd (listen_iter (snd (AsyncRPC get_config (UserCallback "on-reply")
     (established [v10] [] [inl (reply_ok "101")])))))) =
    [(UserCallback "on-reply",
      mkEvent "101" 0 (VReply (mkRPCReply "101" [] (reply_ok "101"))))] /\
  listener (snd (listen_iter (snd (AsyncRPC get_config (UserCallback "on-reply")
     (established [v10] [] [inl (reply_ok "101")]))))) !! "101" = None.
Proof.
  assert (Hkey : GetMessageID get_config <> NetconfNotificationStreamHandler)
    by (vm_compute; discriminate).
  split; [exact Hkey|].
  assert (Hrun : let w' := snd (listen_iter (snd (AsyncRPC get_config
                    (UserCallback "on-reply")
                    (established [v10] [] [inl (reply_ok "101")])))) in
            invocations (trace w') =
              (invocations (trace (established [v10] [] [inl (reply_ok "101")])) ++
               [(UserCallback "on-reply",
                 mkEvent (GetMessageID get_config) 0
                   (VReply (mkRPCReply "101" [] (reply_ok "101"))))])%list /\
            listener w' !! GetMessageID get_config = None /\
            listener w' = delete (GetMessageID get_config)
                            (listener (established [v10] [] [inl (reply_ok "101")]))).
  { refine (AsyncRPC_then_reply (H := catalog) get_config "on-reply"
              (established [v10] [] [inl (reply_ok "101")])
              (xml_Header +:+ "<rpc message-id='101'><get-config/></rpc>")
              (reply_ok "101") (mkRPCReply "101" [] (reply_ok "101"))
              _ _ _ _ _ _ Hkey); vm_compute; reflexivity. }
  destruct Hrun as (Hinv & Hgone & _).
  split; [rewrite Hinv; vm_compute; reflexivity | exact Hgone].
Defined.

Lemma CreateNotificationStream_success_then_conflict_netconf :
  fst (CreateNotificationStream 1 steady "" "" "NETCONF" on_event
         (established [v10] [] [inl (reply_ok "subscribe-1")])) = Some (Returned None) /\
  fst (CreateNotificationStream 7 steady "" "" "other" (UserCallback "second")
         (snd (CreateNotificationStream 1 steady "" "" "NETCONF" on_event
                 (established [v10] [] [inl (reply_ok "subscribe-1")]))))
    = Some (Returned (Some subscription_conflict)).
Proof.
  assert (Hfirst : CreateNotificationStream 1 steady "" "" "NETCONF" on_event
         (established [v10] [] [inl (reply_ok "subscribe-1")]) =
         (Some (Returned None),
          snd (CreateNotificationStream 1 steady "" "" "NETCONF" on_event
                 (established [v10] [] [inl (reply_ok "subscribe-1")]))))
    by (vm_compute; reflexivity).
  split; [now rewrite Hfirst|].
  destruct (CreateNotificationStream_success_then_conflict (H := catalog)
              1 steady "" "" "NETCONF" on_event _ _
              ltac:(vm_compute; discriminate) Hfirst) as (_ & _ & _ & Hconflict).
  now rewrite Hconflict.
Defined.

Lemma stream_flag_never_cleared_by_Close :
  IsNotificationStreamCreated
    (session (snd (CreateNotificationStream 1 steady "" "" "NETCONF" on_event
                     (established [v10] [] [inl (reply_ok "subscribe-1")])))) = true /\
  IsNotificationStreamCreated
    (session (run OpClose
       (snd (CreateNotificationStream 1 steady "" "" "NETCONF" on_event
               (established [v10] [] [inl (reply_ok "subscribe-1")]))))) = true.
Proof.
  assert (Hset : IsNotificationStreamCreated
    (session (snd (CreateNotificationStream 1 steady "" "" "NETCONF" on_event
                     (established [v10] [] [inl (reply_ok "subscribe-1")])))) = true)
    by (vm_compute; reflexivity).
  split; [exact Hset|].
  exact (proj1 (stream_flag_never_cleared (H := catalog) OpClose _) Hset).
Defined.

Lemma SyncRPC_send_failure_broken_pipe :
  head (send_answers (transport (established [v10] [Some "broken pipe"] [])))
    = Some (Some "broken pipe") /\
  fst (SyncRPC 9 steady get_config (established [v10] [Some "broken pipe"] []))
    = Some (Returned (None, Some "broken pipe")) /\
  listener (snd (SyncRPC 9 steady get_config
                   (established [v10] [Some "broken pipe"] []))) !! "101"
    = Some (mkRegistration (SyncRPCCallback 0) SingleShot).
Proof.
  assert (Hsend : head (send_answers (transport
            (established [v10] [Some "broken pipe"] []))) = Some (Some "broken pipe"))
    by (vm_compute; reflexivity).
  split; [exact Hsend|].
  destruct (SyncRPC_send_failure (H := catalog) 9 steady get_config
              (established [v10] [Some "broken pipe"] [])) as (_ & Hfail).
  destruct (Hfail (xml_Header +:+ "<rpc message-id='101'><get-config/></rpc>")
                  "broken pipe" ltac:(vm_compute; reflexivity) Hsend)
    as (Hret & Hreg & _).
  split; [exact Hret|]. etransitivity; [exact Hreg | vm_compute; reflexivity].
Defined.
